(** * SimpleBackup: the backup orchestrator of [backup_automator.py]

    A shallow embedding of [BackupConfig], [BackupManager] and [main].

    Modelling choices, fixed once for the whole development:
    - a configuration file holds text that parses to a JSON value, text
      that is not JSON, or bytes that are not text; a JSON object is a record
      of optional fields, one per key the code reads with [config.get] or
      [config[...]], each with the JSON type the code expects there; a JSON
      value that is not an object is kept as it is; a target (an entry of
      [websites] or [databases]) is a Python [dict] from key to JSON scalar
      ([None], [bool], [int], [str]; no float, no nested value), so that a
      missing key, a falsy [enabled] or a [type] that is not a string behave
      as in Python;
    - Python exceptions are values of [exn]; a computation is a function
      from the world to a result (a value or a raised exception) and the
      world it leaves, so effects done before a [raise] stay done;
    - the filesystem maps a directory path to its direct entries by name;
      paths are compared as written (no normalisation) and a backup name
      holds no path separator; configuration files are kept apart from
      these entries, by path, with what they hold; opening a file for
      writing fails when its directory is missing; permissions and disk
      errors are left out;
    - the clock, the executables found on the search path and the outcome
      of the external programs belong to the environment [env]; what an
      external program writes to its standard error is a sequence of bytes,
      which [decode] accepts when it is well-formed UTF-8;
    - times are exact rationals (seconds since the epoch), sizes are byte
      counts, log lines are structured messages rather than formatted
      text. *)

From Stdlib Require Import QArith Lqa Ascii String.
From stdpp Require Import gmap strings list fin_maps pretty.

Local Open Scope Z_scope.

(** ** Python values *)

Inductive scalar :=
  | VNone
  | VBool (b : bool)
  | VInt (z : Z)
  | VStr (s : string).

Abbreviation dict := (gmap string scalar).

(** [bool(v)]: the truth value Python gives a scalar. *)
Definition truthy (v : scalar) : bool :=
  match v with
  | VNone => false
  | VBool b => b
  | VInt z => negb (z =? 0)
  | VStr s => negb (String.eqb s "")
  end.

(** [str(v)], as an f-string formats a scalar. *)
Definition py_str (v : scalar) : string :=
  match v with
  | VNone => "None"
  | VBool true => "True"
  | VBool false => "False"
  | VInt z => pretty z
  | VStr s => s
  end.

(** [d.get(key, default)] *)
Definition dict_get (d : dict) (key : string) (default : scalar) : scalar :=
  match d !! key with
  | Some v => v
  | None => default
  end.

Inductive exn :=
  | KeyError (key : string)
  | TypeError
  | AttributeError
  | FileNotFoundError
  | JSONDecodeError
  | UnicodeDecodeError
  | Exception_ (msg : string)
  | SystemExit (code : Z).

(** [except Exception] catches everything but [SystemExit]. *)
Definition is_Exception (e : exn) : bool :=
  match e with
  | SystemExit _ => false
  | _ => true
  end.

(** ASCII case folding of [str.lower]. *)
Definition lower_ascii (c : Ascii.ascii) : Ascii.ascii :=
  let n := Ascii.nat_of_ascii c in
  if ((65 <=? n)%nat && (n <=? 90)%nat)%bool
  then Ascii.ascii_of_nat (n + 32) else c.

Fixpoint lower (s : string) : string :=
  match s with
  | EmptyString => EmptyString
  | String c rest => String (lower_ascii c) (lower rest)
  end.

(** ** Bytes and text *)

(** A string of this development is a sequence of bytes.  A Python [str]
    is held as its UTF-8 encoding; [bytes.decode()] therefore gives back the
    bytes it was applied to, provided they are well-formed UTF-8, and raises
    [UnicodeDecodeError] otherwise. *)
Definition byte_in (lo hi : N) (c : Ascii.ascii) : bool :=
  let n := Ascii.N_of_ascii c in ((lo <=? n) && (n <=? hi))%N.

(** A continuation byte, [80..BF]. *)
Definition continuation (c : Ascii.ascii) : bool := byte_in 128 191 c.

(** The range of the second byte of a three-byte sequence that starts with
    [c]: [E0] excludes the overlong forms, [ED] the surrogates. *)
Definition second_of_three (c c1 : Ascii.ascii) : bool :=
  if byte_in 224 224 c then byte_in 160 191 c1
  else if byte_in 237 237 c then byte_in 128 159 c1
  else continuation c1.

(** The range of the second byte of a four-byte sequence that starts with
    [c]: [F0] excludes the overlong forms, [F4] what lies above [U+10FFFF]. *)
Definition second_of_four (c c1 : Ascii.ascii) : bool :=
  if byte_in 240 240 c then byte_in 144 191 c1
  else if byte_in 244 244 c then byte_in 128 143 c1
  else continuation c1.

(** Well-formed UTF-8, as the strict decoder of Python accepts it. *)
Fixpoint utf8 (bytes : string) : bool :=
  match bytes with
  | EmptyString => true
  | String c rest =>
      if byte_in 0 127 c then utf8 rest
      else
        match rest with
        | EmptyString => false
        | String c1 rest1 =>
            if byte_in 194 223 c then continuation c1 && utf8 rest1
            else
              match rest1 with
              | EmptyString => false
              | String c2 rest2 =>
                  if byte_in 224 239 c
                  then second_of_three c c1 && continuation c2 && utf8 rest2
                  else
                    match rest2 with
                    | EmptyString => false
                    | String c3 rest3 =>
                        byte_in 240 244 c && second_of_four c c1
                        && continuation c2 && continuation c3 && utf8 rest3
                    end
              end
        end
  end.

(** ** The configuration document *)

Record Configuration := {
  backup_dir : option string;
  retention_days : option Z;
  compression : option string;
  websites : option (list dict);
  databases : option (list dict);
  notifications : option dict
}.

(** ** The world *)

Record file := { st_size : Z; st_mtime : Q }.

(** An entry of a directory, with what [stat()] reports for it. *)
Inductive node :=
  | Dir (f : file)
  | File (f : file).

(** A JSON value, as [json.load] builds it. *)
#[warnings="-register-all"] Inductive json :=
  | JNull
  | JBool (b : bool)
  | JInt (z : Z)
  | JFloat (q : Q)
  | JString (s : string)
  | JArray (items : list json)
  | JObject (members : list (string * json)).

(** What [json.load] returns: a [dict], seen through the keys the program
    reads, or a value that is not a [dict]. *)
Inductive parsed :=
  | Object (c : Configuration)
  | Null
  | Boolean (b : bool)
  | Integer (z : Z)
  | Float (q : Q)
  | Text (s : string)
  | Array (items : list json).

(** What a configuration path holds: text that [json.load] parses, to any
    JSON value; text that it rejects with [JSONDecodeError]; or bytes that
    are not text, on which reading raises [UnicodeDecodeError]. *)
Inductive document :=
  | Parses (v : parsed)
  | NotJson
  | NotText.

(** A file that holds a JSON object. *)
Abbreviation Json c := (Parses (Object c)).

Record proc := { argv : list string; environ : list (string * string) }.

Inductive level := INFO | ERROR.

Inductive message :=
  | SkippingDisabledWebsite (name : scalar)
  | WebsitePathDoesNotExist (site_path : string)
  | BackingUpWebsite (name : scalar)
  | WebsiteBackupCompleted (backup_name : string) (size : Z)
  | WebsiteBackupFailed (e : exn)
  | BackingUpMySQLDatabase (database : scalar)
  | MySQLBackupCompleted (backup_name : string) (size : Z)
  | MysqldumpNotFound
  | MySQLBackupFailed (e : exn)
  | BackingUpPostgreSQLDatabase (database : scalar)
  | PostgreSQLBackupCompleted (backup_name : string) (size : Z)
  | PgDumpNotFound
  | PostgreSQLBackupFailed (e : exn)
  | SkippingDisabledDatabase (name : scalar)
  | UnsupportedDatabaseType (db_type : string)
  | CleaningUpBackupsOlderThan (days : Z)
  | RemovedOldBackup (name : string)
  | CleanedUp (removed_count : Z) (freed_space : Z)
  | NoOldBackupsToRemove
  | Rule
  | StartingBackupProcess
  | BackupProcessCompleted (success_count fail_count : Z)
  | InvalidJSON (config_file : string).

Inductive printed_line :=
  | DefaultConfigurationCreated (config_file : string)
  | PleaseEditThisFile
  | ConfigurationInitialized
  | EditToConfigure (config_file : string)
  | VersionBanner.

Record world := {
  fs : gmap string (gmap string node);
  docs : gmap string document;
  reads : nat;
  log : list (level * message);
  procs : list proc;
  stdout : list printed_line
}.

(** ** The environment *)

(** [day] is [strftime(%Y%m%d)] and [stamp] is [strftime(%Y%m%d_%H%M%S)]
    of the local time at that instant. *)
Record instant := { epoch : Q; day : string; stamp : string }.

(** Outcome of the pipe [dump | gzip > file], once both stages are over:
    the return codes, the bytes each stage wrote to its standard error, and
    the number of bytes the compressor wrote to the destination. *)
Record pipe_result := {
  dump_returncode : Z;
  dump_error : string;
  gzip_returncode : Z;
  gzip_error : string;
  written : Z
}.

(** Outcome of [tar.add] followed by closing the archive. *)
Inductive tar_result :=
  | TarDone (size : Z)
  | TarFailed (partial : Z) (e : exn).

Record env := {
  clock : nat → instant;
  on_path : string → bool;
  pipe : nat → proc → pipe_result;
  tar_add : nat → string → string → tar_result
}.

(** ** Computations *)

Inductive res (A : Type) :=
  | Ret (a : A)
  | Raise (e : exn).
Arguments Ret {A} a.
Arguments Raise {A} e.

Definition Py (A : Type) : Type := world → res A * world.

Definition ret {A} (a : A) : Py A := λ w, (Ret a, w).

Definition raise {A} (e : exn) : Py A := λ w, (Raise e, w).

Definition bind {A B} (m : Py A) (k : A → Py B) : Py B :=
  λ w, match m w with
       | (Ret a, w') => k a w'
       | (Raise e, w') => (Raise e, w')
       end.

(** [try: m  except ...: h e]; a handler re-raises what its clauses do not
    match. *)
Definition try_except {A} (m : Py A) (h : exn → Py A) : Py A :=
  λ w, match m w with
       | (Ret a, w') => (Ret a, w')
       | (Raise e, w') => h e w'
       end.

Declare Scope py_scope.
Delimit Scope py_scope with py.
Notation "x <- m ;; k" := (bind m (λ x, k))
  (at level 100, m at next level, right associativity) : py_scope.
Notation "m ;;; k" := (bind m (λ _, k))
  (at level 100, right associativity) : py_scope.
Local Open Scope py_scope.

(** [d[key]] *)
Definition subscript (d : dict) (key : string) : Py scalar :=
  match d !! key with
  | Some v => ret v
  | None => raise (KeyError key)
  end.

(** [v.lower()] *)
Definition py_lower (v : scalar) : Py string :=
  match v with
  | VStr s => ret (lower s)
  | _ => raise AttributeError
  end.

(** A value used where the library wants a [str] (a path, an argument
    vector entry, an environment value). *)
Definition as_str (v : scalar) : Py string :=
  match v with
  | VStr s => ret s
  | _ => raise TypeError
  end.

(** The world after one more log line. *)
Definition logged (l : level) (m : message) (w : world) : world :=
  {| fs := fs w; docs := docs w; reads := reads w;
     log := log w ++ [(l, m)]; procs := procs w; stdout := stdout w |}.

(** [logging.info(...)], [logging.error(...)] *)
Definition logging (l : level) (m : message) : Py unit :=
  λ w, (Ret tt, logged l m w).

Definition print (p : printed_line) : Py unit :=
  λ w, (Ret tt, {| fs := fs w; docs := docs w; reads := reads w;
                   log := log w; procs := procs w;
                   stdout := stdout w ++ [p] |}).

(** The world after one more clock reading. *)
Definition ticked (w : world) : world :=
  {| fs := fs w; docs := docs w; reads := S (reads w); log := log w;
     procs := procs w; stdout := stdout w |}.

(** The world after one more process was started. *)
Definition spawned (p : proc) (w : world) : world :=
  {| fs := fs w; docs := docs w; reads := reads w; log := log w;
     procs := procs w ++ [p]; stdout := stdout w |}.

Definition set_fs (f : gmap string (gmap string node)) (w : world) : world :=
  {| fs := f; docs := docs w; reads := reads w; log := log w;
     procs := procs w; stdout := stdout w |}.

(** ** ConfigStore: [BackupConfig] *)

Definition default_config : Configuration := {|
  backup_dir := Some "./backups";
  retention_days := Some 7;
  compression := Some "gz";
  websites := Some [
    list_to_map [("name", VStr "example_site");
                 ("path", VStr "/var/www/html/example");
                 ("enabled", VBool false)] ];
  databases := Some [
    list_to_map [("name", VStr "example_db");
                 ("type", VStr "mysql");
                 ("host", VStr "localhost");
                 ("port", VInt 3306);
                 ("user", VStr "backup_user");
                 ("password", VStr "your_password");
                 ("database", VStr "example_database");
                 ("enabled", VBool false)] ];
  notifications := Some (list_to_map [("enabled", VBool false);
                                      ("email", VStr "admin@example.com")])
|}.

(** [p] cut at its last separator: the directory and the entry name. *)
Fixpoint split_last_slash (p : string) : option (string * string) :=
  match p with
  | EmptyString => None
  | String c rest =>
      match split_last_slash rest with
      | Some (dir, name) => Some (String c dir, name)
      | None => if Ascii.eqb c "/"%char then Some (EmptyString, rest) else None
      end
  end.

(** [os.path.exists(config_file)]: a file with its content, or a directory
    of the world. *)
Definition os_path_exists (config_file : string) : Py bool :=
  λ w, (Ret (bool_decide (is_Some (docs w !! config_file))
             || bool_decide (is_Some (fs w !! config_file))), w).

(** Whether the directory that [config_file] lies in is there: a bare name
    lies in the current directory and [/name] in the root; these two, [.]
    and [..] are always there; otherwise what precedes the last separator
    must be a directory of the world.  The empty path lies nowhere. *)
Definition in_directory (config_file : string) (w : world) : bool :=
  match split_last_slash config_file with
  | None => negb (String.eqb config_file "")
  | Some (dir, _) =>
      bool_decide (dir ∈ [""; "."; ".."])
      || bool_decide (is_Some (fs w !! dir))
  end.

(** [with open(config_file, 'w') as f: json.dump(c, f)]: [open] refuses a
    directory and a path whose directory is missing, and nothing is written
    then; otherwise the file holds the document afterwards. *)
Definition json_dump (config_file : string) (c : Configuration) : Py unit :=
  λ w, if bool_decide (is_Some (fs w !! config_file))
       then (Raise (Exception_ "IsADirectoryError"), w)
       else if in_directory config_file w
       then (Ret tt, {| fs := fs w; docs := <[config_file := Json c]> (docs w);
                        reads := reads w; log := log w; procs := procs w;
                        stdout := stdout w |})
       else (Raise FileNotFoundError, w).

Definition create_default_config (config_file : string) : Py parsed :=
  json_dump config_file default_config ;;;
  print (DefaultConfigurationCreated config_file) ;;;
  print PleaseEditThisFile ;;;
  ret (Object default_config).

(** [with open(config_file, 'r') as f: return json.load(f)]: whatever value
    the text parses to is returned as it is. *)
Definition json_load (config_file : string) : Py parsed :=
  λ w, match docs w !! config_file with
       | Some (Parses v) => (Ret v, w)
       | Some NotJson => (Raise JSONDecodeError, w)
       | Some NotText => (Raise UnicodeDecodeError, w)
       | None =>
           if bool_decide (is_Some (fs w !! config_file))
           then (Raise (Exception_ "IsADirectoryError"), w)
           else (Raise FileNotFoundError, w)
       end.

Definition load_config (config_file : string) : Py parsed :=
  present <- os_path_exists config_file ;;
  if negb present then create_default_config config_file
  else
    try_except (json_load config_file)
      (λ e, match e with
            | JSONDecodeError =>
                logging ERROR (InvalidJSON config_file) ;;;
                raise (SystemExit 1)
            | _ => raise e
            end).

(** ** Filesystem primitives *)

(** [dir / name] *)
Definition joinpath (dir name : string) : string := dir +:+ "/" +:+ name.

Definition entries (w : world) (dir : string) : gmap string node :=
  default ∅ (fs w !! dir).

(** [Path(p).exists()]: [p] is a directory of the world, or an entry of
    one. *)
Definition path_exists (p : string) : Py bool :=
  λ w, (Ret (bool_decide (is_Some (fs w !! p))
             || match split_last_slash p with
                | Some (dir, name) =>
                    bool_decide (is_Some (entries w dir !! name))
                | None => false
                end), w).

(** [(dir / name).exists()] *)
Definition exists_in (dir name : string) : Py bool :=
  λ w, (Ret (bool_decide (is_Some (entries w dir !! name))), w).

(** [(dir / name).is_file()] *)
Definition is_file (dir name : string) : Py bool :=
  λ w, (Ret (match entries w dir !! name with
             | Some (File _) => true
             | _ => false
             end), w).

(** [(dir / name).stat()] *)
Definition stat (dir name : string) : Py file :=
  λ w, match entries w dir !! name with
       | Some (File f) | Some (Dir f) => (Ret f, w)
       | None => (Raise FileNotFoundError, w)
       end.

(** [(dir / name).unlink()] *)
Definition unlink (dir name : string) : Py unit :=
  λ w, match entries w dir !! name with
       | Some (File _) =>
           (Ret tt, set_fs (<[dir := delete name (entries w dir)]> (fs w)) w)
       | Some (Dir _) => (Raise (Exception_ "IsADirectoryError"), w)
       | None => (Raise FileNotFoundError, w)
       end.

Section Program.

Context (E : env).

(** [datetime.now()] *)
Definition now : Py instant :=
  λ w, (Ret (clock E (reads w)), ticked w).

(** The file [dir / name] gets [size] bytes, stamped with the current time. *)
Definition put_file (dir name : string) (size : Z) (w : world) : world :=
  set_fs (<[dir := <[name := File {| st_size := size;
                                     st_mtime := epoch (clock E (reads w)) |}]>
                     (entries w dir)]> (fs w)) w.

(** [open(dir / name, 'wb')]: creates or truncates the file. *)
Definition open_wb (dir name : string) : Py unit :=
  λ w, match fs w !! dir with
       | None => (Raise FileNotFoundError, w)
       | Some es =>
           match es !! name with
           | Some (Dir _) => (Raise (Exception_ "IsADirectoryError"), w)
           | _ => (Ret tt, put_file dir name 0 w)
           end
       end.

(** [open(dir / name, 'a')], as [logging.FileHandler] does: creates the
    file when it is not there. *)
Definition open_append (dir name : string) : Py unit :=
  λ w, match fs w !! dir with
       | None => (Raise FileNotFoundError, w)
       | Some es =>
           match es !! name with
           | Some (Dir _) => (Raise (Exception_ "IsADirectoryError"), w)
           | Some (File _) => (Ret tt, w)
           | None => (Ret tt, put_file dir name 0 w)
           end
       end.

(** [Path(p).mkdir(parents=True, exist_ok=True)]: nothing to do when the
    directory is there; otherwise it is created empty, and entered in its
    parent when the parent is a directory of the world. *)
Definition mkdir (p : string) : Py unit :=
  λ w, match fs w !! p with
       | Some _ => (Ret tt, w)
       | None =>
           match split_last_slash p with
           | Some (parent, name) =>
               match fs w !! parent with
               | Some es =>
                   match es !! name with
                   | Some (File _) => (Raise (Exception_ "FileExistsError"), w)
                   | _ =>
                       (Ret tt,
                        set_fs (<[p := ∅]>
                                  (<[parent := <[name :=
                                       Dir {| st_size := 0;
                                              st_mtime := epoch (clock E (reads w)) |}]>
                                     es]> (fs w))) w)
                   end
               | None => (Ret tt, set_fs (<[p := ∅]> (fs w)) w)
               end
           | None => (Ret tt, set_fs (<[p := ∅]> (fs w)) w)
           end
       end.

Fixpoint all_str (l : list scalar) : Py (list string) :=
  match l with
  | [] => ret []
  | v :: rest => s <- as_str v ;; ss <- all_str rest ;; ret (s :: ss)
  end.

Fixpoint all_env (l : list (string * scalar)) : Py (list (string * string)) :=
  match l with
  | [] => ret []
  | (k, v) :: rest => s <- as_str v ;; ss <- all_env rest ;; ret ((k, s) :: ss)
  end.

(** [subprocess.Popen(cmd, env=...)]: the arguments must be strings, the
    executable must be found; then the process is started. *)
Definition Popen (cmd : list scalar) (extra_env : list (string * scalar))
  : Py proc :=
  args <- all_str cmd ;;
  vars <- all_env extra_env ;;
  let p := {| argv := args; environ := vars |} in
  λ w, if on_path E (List.hd "" args)
       then (Ret p, spawned p w)
       else (Raise FileNotFoundError, w).

(** Both [communicate()] calls: the pipe has run to its end and the
    destination holds what the compressor wrote. *)
Definition communicate (dir name : string) (dump_process : proc)
  : Py pipe_result :=
  λ w, let r := pipe E (reads w) dump_process in
       (Ret r, put_file dir name (written r) w).

(** ** BackupManager *)

Record BackupManager := {
  self_config : Configuration;
  self_backup_dir : string
}.

Definition log_file_name (t : instant) : string :=
  "backup_" +:+ day t +:+ ".log".

(** [setup_logging]: the log directory and the day's log file exist
    afterwards; the lines logged are kept in [log]. *)
Definition setup_logging (dir : string) : Py unit :=
  let log_dir := joinpath dir "logs" in
  mkdir log_dir ;;;
  t <- now ;;
  let log_file := log_file_name t in
  open_append log_dir log_file.

(** [BackupManager.__init__] *)
Definition BackupManager_init (config : Configuration) : Py BackupManager :=
  match backup_dir config with
  | None => raise (KeyError "backup_dir")
  | Some dir =>
      mkdir dir ;;;
      setup_logging dir ;;;
      ret {| self_config := config; self_backup_dir := dir |}
  end.

(** [BackupManager(config)] on what [load_config] returned:
    [config['backup_dir']] is the first thing [__init__] evaluates, and only
    a [dict] can be indexed by a string. *)
Definition new_BackupManager (config : parsed) : Py BackupManager :=
  match config with
  | Object c => BackupManager_init c
  | _ => raise TypeError
  end.

Definition get_timestamp : Py string :=
  t <- now ;; ret (stamp t).

(** [tar.add(site_path, arcname=name)] and the closing of the archive. *)
Definition tar_add_close (dir backup_name site_path : string) (name : scalar)
  : Py unit :=
  arcname <- match name with
             | VStr s => ret s
             | VNone => ret site_path
             | _ => raise TypeError
             end ;;
  λ w, match tar_add E (reads w) site_path arcname with
       | TarDone size => (Ret tt, put_file dir backup_name size w)
       | TarFailed partial e => (Raise e, put_file dir backup_name partial w)
       end.

Definition backup_website (self : BackupManager) (website : dict)
  : Py (option string) :=
  if negb (truthy (dict_get website "enabled" (VBool false))) then
    name <- subscript website "name" ;;
    logging INFO (SkippingDisabledWebsite name) ;;;
    ret None
  else
    path <- subscript website "path" ;;
    site_path <- as_str path ;;
    present <- path_exists site_path ;;
    if negb present then
      logging ERROR (WebsitePathDoesNotExist site_path) ;;;
      ret None
    else
      timestamp <- get_timestamp ;;
      name <- subscript website "name" ;;
      let backup_name := py_str name +:+ "_website_" +:+ timestamp +:+ ".tar.gz" in
      let dir := self_backup_dir self in
      logging INFO (BackingUpWebsite name) ;;;
      try_except
        (open_wb dir backup_name ;;;
         tar_add_close dir backup_name site_path name ;;;
         st <- stat dir backup_name ;;
         logging INFO (WebsiteBackupCompleted backup_name (st_size st)) ;;;
         ret (Some (joinpath dir backup_name)))
        (λ e, if is_Exception e then
                logging ERROR (WebsiteBackupFailed e) ;;;
                ret None
              else raise e).

(** [bytes.decode()] *)
Definition decode (bytes : string) : Py string :=
  if utf8 bytes then ret bytes else raise UnicodeDecodeError.

(** The two-stage pipe shared by both database paths: the dump process,
    then [gzip] reading from it and writing to the open destination; the
    message of each exception is built from the decoded standard error. *)
Definition dump_through_gzip (dir backup_name tool : string)
  (cmd : list scalar) (extra_env : list (string * scalar)) : Py unit :=
  open_wb dir backup_name ;;;
  dump_process <- Popen cmd extra_env ;;
  Popen [VStr "gzip"] [] ;;;
  r <- communicate dir backup_name dump_process ;;
  (if negb (dump_returncode r =? 0)
   then text <- decode (dump_error r) ;;
        raise (Exception_ (tool +:+ " error: " +:+ text))
   else ret tt) ;;;
  (if negb (gzip_returncode r =? 0)
   then text <- decode (gzip_error r) ;;
        raise (Exception_ ("gzip error: " +:+ text))
   else ret tt).

(** The [cmd] list of [backup_mysql_database]. *)
Definition mysqldump_cmd (host port user password database : scalar)
  : list scalar :=
  [VStr "mysqldump";
   VStr ("--host=" +:+ py_str host);
   VStr ("--port=" +:+ py_str port);
   VStr ("--user=" +:+ py_str user);
   VStr ("--password=" +:+ py_str password);
   VStr "--single-transaction";
   VStr "--quick";
   VStr "--lock-tables=false";
   database].

(** The [cmd] list of [backup_postgresql_database]. *)
Definition pg_dump_cmd (host port user database : scalar) : list scalar :=
  [VStr "pg_dump";
   VStr ("--host=" +:+ py_str host);
   VStr ("--port=" +:+ py_str port);
   VStr ("--username=" +:+ py_str user);
   VStr "--format=plain";
   VStr "--no-owner";
   VStr "--no-acl";
   database].

Definition backup_mysql_database (self : BackupManager) (db_config : dict)
  : Py (option string) :=
  timestamp <- get_timestamp ;;
  name <- subscript db_config "name" ;;
  let backup_name := py_str name +:+ "_mysql_" +:+ timestamp +:+ ".sql.gz" in
  let dir := self_backup_dir self in
  database <- subscript db_config "database" ;;
  logging INFO (BackingUpMySQLDatabase database) ;;;
  try_except
    (host <- subscript db_config "host" ;;
     port <- subscript db_config "port" ;;
     user <- subscript db_config "user" ;;
     password <- subscript db_config "password" ;;
     database <- subscript db_config "database" ;;
     let cmd := mysqldump_cmd host port user password database in
     dump_through_gzip dir backup_name "mysqldump" cmd [] ;;;
     st <- stat dir backup_name ;;
     logging INFO (MySQLBackupCompleted backup_name (st_size st)) ;;;
     ret (Some (joinpath dir backup_name)))
    (λ e, match e with
          | FileNotFoundError =>
              logging ERROR MysqldumpNotFound ;;;
              ret None
          | SystemExit _ => raise e
          | _ =>
              logging ERROR (MySQLBackupFailed e) ;;;
              present <- exists_in dir backup_name ;;
              (if present then unlink dir backup_name else ret tt) ;;;
              ret None
          end).

Definition backup_postgresql_database (self : BackupManager) (db_config : dict)
  : Py (option string) :=
  timestamp <- get_timestamp ;;
  name <- subscript db_config "name" ;;
  let backup_name := py_str name +:+ "_postgresql_" +:+ timestamp +:+ ".sql.gz" in
  let dir := self_backup_dir self in
  database <- subscript db_config "database" ;;
  logging INFO (BackingUpPostgreSQLDatabase database) ;;;
  try_except
    (password <- subscript db_config "password" ;;
     host <- subscript db_config "host" ;;
     let port := dict_get db_config "port" (VInt 5432) in
     user <- subscript db_config "user" ;;
     database <- subscript db_config "database" ;;
     let cmd := pg_dump_cmd host port user database in
     dump_through_gzip dir backup_name "pg_dump" cmd [("PGPASSWORD", password)] ;;;
     st <- stat dir backup_name ;;
     logging INFO (PostgreSQLBackupCompleted backup_name (st_size st)) ;;;
     ret (Some (joinpath dir backup_name)))
    (λ e, match e with
          | FileNotFoundError =>
              logging ERROR PgDumpNotFound ;;;
              ret None
          | SystemExit _ => raise e
          | _ =>
              logging ERROR (PostgreSQLBackupFailed e) ;;;
              present <- exists_in dir backup_name ;;
              (if present then unlink dir backup_name else ret tt) ;;;
              ret None
          end).

Definition backup_database (self : BackupManager) (db_config : dict)
  : Py (option string) :=
  if negb (truthy (dict_get db_config "enabled" (VBool false))) then
    name <- subscript db_config "name" ;;
    logging INFO (SkippingDisabledDatabase name) ;;;
    ret None
  else
    db_type <- py_lower (dict_get db_config "type" (VStr "mysql")) ;;
    if (String.eqb db_type "mysql" || String.eqb db_type "mariadb")%bool then
      backup_mysql_database self db_config
    else if (String.eqb db_type "postgresql" || String.eqb db_type "postgres")%bool then
      backup_postgresql_database self db_config
    else
      logging ERROR (UnsupportedDatabaseType db_type) ;;;
      ret None.

(** ** RetentionSweeper *)

(** The part of [s] from its last dot on, if [s] has a dot. *)
Fixpoint from_last_dot (s : string) : option string :=
  match s with
  | EmptyString => None
  | String c rest =>
      match from_last_dot rest with
      | Some t => Some t
      | None => if Ascii.eqb c "."%char then Some s else None
      end
  end.

(** [Path.suffix]: with [i = name.rfind('.')], [name[i:]] when
    [0 < i < len(name) - 1], and the empty string otherwise. *)
Definition suffix (name : string) : string :=
  match name with
  | EmptyString => ""
  | String _ rest =>
      match from_last_dot rest with
      | Some t => if String.eqb t "." then "" else t
      | None => ""
      end
  end.

(** [suffix in ['.gz', '.sql', '.tar']] *)
Definition recognized (name : string) : bool :=
  bool_decide (suffix name ∈ [".gz"; ".sql"; ".tar"]).

(** [file_age > retention_seconds] *)
Definition older_than (file_age : Q) (retention_seconds : Z) : bool :=
  negb (Qle_bool file_age (inject_Z retention_seconds)).

(** [self.backup_dir.glob('*')]: the direct entries of the directory. *)
Definition glob_star (dir : string) : Py (list string) :=
  λ w, (Ret (map fst (map_to_list (entries w dir))), w).

(** The body of the [for backup_file in ...] loop, over the entries left. *)
Fixpoint sweep (dir : string) (current_time : Q) (retention_seconds : Z)
  (backup_files : list string) (counts : Z * Z) : Py (Z * Z) :=
  match backup_files with
  | [] => ret counts
  | name :: rest =>
      regular <- is_file dir name ;;
      if (regular && recognized name)%bool then
        st <- stat dir name ;;
        let file_age := (current_time - st_mtime st)%Q in
        if older_than file_age retention_seconds then
          st' <- stat dir name ;;
          let file_size := st_size st' in
          unlink dir name ;;;
          logging INFO (RemovedOldBackup name) ;;;
          sweep dir current_time retention_seconds rest
                (fst counts + 1, snd counts + file_size)
        else sweep dir current_time retention_seconds rest counts
      else sweep dir current_time retention_seconds rest counts
  end.

Definition cleanup_old_backups (self : BackupManager) : Py unit :=
  let retention_days := default 7 (retention_days (self_config self)) in
  t <- now ;;
  let current_time := epoch t in
  let retention_seconds := retention_days * 24 * 3600 in
  logging INFO (CleaningUpBackupsOlderThan retention_days) ;;;
  backup_files <- glob_star (self_backup_dir self) ;;
  counts <- sweep (self_backup_dir self) current_time retention_seconds
                  backup_files (0, 0) ;;
  if fst counts >? 0
  then logging INFO (CleanedUp (fst counts) (snd counts))
  else logging INFO NoOldBackupsToRemove.

(** ** BackupOrchestrator *)

(** One [for] loop of [run_backup]: [counts] is
    [(success_count, fail_count)]. *)
Fixpoint for_each (backup : dict → Py (option string)) (targets : list dict)
  (counts : Z * Z) : Py (Z * Z) :=
  match targets with
  | [] => ret counts
  | target :: rest =>
      result <- backup target ;;
      for_each backup rest
        (match result with
         | Some _ => (fst counts + 1, snd counts)
         | None => (fst counts, snd counts + 1)
         end)
  end.

Definition run_backup (self : BackupManager) : Py (Z * Z) :=
  logging INFO Rule ;;;
  logging INFO StartingBackupProcess ;;;
  logging INFO Rule ;;;
  counts <- for_each (backup_website self)
                     (default [] (websites (self_config self))) (0, 0) ;;
  counts <- for_each (backup_database self)
                     (default [] (databases (self_config self))) counts ;;
  cleanup_old_backups self ;;;
  logging INFO Rule ;;;
  logging INFO (BackupProcessCompleted (fst counts) (snd counts)) ;;;
  logging INFO Rule ;;;
  ret counts.

(** ** Command line *)

Record args := {
  args_config : string;
  args_init : bool;
  args_version : bool
}.

Definition main (a : args) : Py unit :=
  if args_version a then
    print VersionBanner ;;;
    raise (SystemExit 0)
  else
    config <- load_config (args_config a) ;;
    if args_init a then
      print ConfigurationInitialized ;;;
      print (EditToConfigure (args_config a)) ;;;
      raise (SystemExit 0)
    else
      backup_manager <- new_BackupManager config ;;
      counts <- run_backup backup_manager ;;
      raise (SystemExit (if snd counts =? 0 then 0 else 1)).

End Program.

(** The exit code of the process: the argument of [sys.exit], or 1 when an
    exception reaches the top. *)
Definition exit_code {A} (r : res A) : Z :=
  match r with
  | Ret _ => 0
  | Raise (SystemExit code) => code
  | Raise _ => 1
  end.

(** * Vocabulary of the properties *)

Definition mysql_type (db_type : string) : bool :=
  (String.eqb db_type "mysql" || String.eqb db_type "mariadb")%bool.

Definition postgresql_type (db_type : string) : bool :=
  (String.eqb db_type "postgresql" || String.eqb db_type "postgres")%bool.

(** The test [cleanup_old_backups] applies to an entry: a regular file with
    a recognized suffix, older than the retention period. *)
Definition expired (current_time : Q) (retention_seconds : Z)
  (name : string) (nd : node) : bool :=
  match nd with
  | File f => recognized name
              && older_than (current_time - st_mtime f)%Q retention_seconds
  | Dir _ => false
  end.

(** What a world keeps when only files of one directory and the log change. *)
Definition same_outside (dir : string) (w w' : world) : Prop :=
  (∀ d, d ≠ dir → fs w' !! d = fs w !! d)
  ∧ docs w' = docs w ∧ reads w' = reads w ∧ procs w' = procs w
  ∧ stdout w' = stdout w.

(** The dump process each path starts, for a target whose fields are
    present and whose [database] (and, for PostgreSQL, [password]) is a
    string. *)
Definition mysqldump_process (host port user password : scalar)
  (database : string) : proc :=
  {| argv := ["mysqldump";
              "--host=" +:+ py_str host;
              "--port=" +:+ py_str port;
              "--user=" +:+ py_str user;
              "--password=" +:+ py_str password;
              "--single-transaction";
              "--quick";
              "--lock-tables=false";
              database];
     environ := [] |}.

Definition pg_dump_process (host port user : scalar)
  (password database : string) : proc :=
  {| argv := ["pg_dump";
              "--host=" +:+ py_str host;
              "--port=" +:+ py_str port;
              "--username=" +:+ py_str user;
              "--format=plain";
              "--no-owner";
              "--no-acl";
              database];
     environ := [("PGPASSWORD", password)] |}.

Definition gzip_process : proc := {| argv := ["gzip"]; environ := [] |}.

(** The exception raised when the standard error [bytes] of the stage
    called [stage] is reported: its message carries the text, if the bytes
    decode. *)
Definition stage_error (stage bytes : string) : exn :=
  if utf8 bytes then Exception_ (stage +:+ " error: " +:+ bytes)
  else UnicodeDecodeError.

(** The exception raised after the pipe, when a stage failed: the dump
    stage is tested first. *)
Definition pipe_error (tool : string) (r : pipe_result) : exn :=
  if dump_returncode r =? 0
  then stage_error "gzip" (gzip_error r)
  else stage_error tool (dump_error r).

Definition mysql_backup_name (name : scalar) (timestamp : string) : string :=
  py_str name +:+ "_mysql_" +:+ timestamp +:+ ".sql.gz".

Definition postgresql_backup_name (name : scalar) (timestamp : string)
  : string :=
  py_str name +:+ "_postgresql_" +:+ timestamp +:+ ".sql.gz".

(** Nothing is at [config_file]: no file and no directory. *)
Definition absent (config_file : string) (w : world) : Prop :=
  docs w !! config_file = None ∧ fs w !! config_file = None.

(** A target the two backup functions skip: [enabled] is missing or falsy;
    the skip line reads the target's [name]. *)
Definition disabled (target : dict) : Prop :=
  truthy (dict_get target "enabled" (VBool false)) = false
  ∧ is_Some (target !! "name").

(** Every entry of every directory of [w'] was already there in [w]. *)
Definition no_new_files (w w' : world) : Prop :=
  ∀ d n nd, entries w' d !! n = Some nd → entries w d !! n = Some nd.

(** The manager [BackupManager(default_config)] builds. *)
Definition default_manager : BackupManager :=
  {| self_config := default_config; self_backup_dir := "./backups" |}.

Definition website_backup_name (name : scalar) (timestamp : string) : string :=
  py_str name +:+ "_website_" +:+ timestamp +:+ ".tar.gz".

(** The [arcname] that [tar.add] uses for a website called [name]: a string
    is taken as it is, [None] means the source path, anything else is
    refused by [tarfile]. *)
Definition arcname_of (name : scalar) (site_path : string) : option string :=
  match name with
  | VStr s => Some s
  | VNone => Some site_path
  | _ => None
  end.

(** The first of [keys] that [d] does not have. *)
Fixpoint first_missing (d : dict) (keys : list string) : option string :=
  match keys with
  | [] => None
  | key :: rest =>
      match d !! key with
      | Some _ => first_missing d rest
      | None => Some key
      end
  end.

(** Whether the entry called [n] of the directory [es] is [expired]. *)
Definition expired_in (current_time : Q) (retention_seconds : Z)
  (es : gmap string node) (n : string) : bool :=
  match es !! n with
  | Some nd => expired current_time retention_seconds n nd
  | None => false
  end.

(** The size of the entry called [n] of [es]. *)
Definition size_in (es : gmap string node) (n : string) : Z :=
  match es !! n with
  | Some (File f) | Some (Dir f) => st_size f
  | None => 0
  end.

Definition total_size (es : gmap string node) (names : list string) : Z :=
  foldr (λ n acc, size_in es n + acc) 0 names.

Definition removal_lines (names : list string) : list (level * message) :=
  map (λ n, (INFO, RemovedOldBackup n)) names.

(** ** Sample hosts, targets and worlds *)

Definition sample_clock (n : nat) : instant :=
  {| epoch := inject_Z (1700000000 + Z.of_nat n);
     day := "20231114";
     stamp := "20231114_221320" |}.

Definition clean_pipe : pipe_result :=
  {| dump_returncode := 0; dump_error := ""; gzip_returncode := 0;
     gzip_error := ""; written := 4096 |}.

Definition refused_pipe : pipe_result :=
  {| dump_returncode := 2; dump_error := "Access denied";
     gzip_returncode := 0; gzip_error := ""; written := 20 |}.

(** A host with [gzip] and no database client tools. *)
Definition bare_host : env :=
  {| clock := sample_clock;
     on_path := λ prog, String.eqb prog "gzip";
     pipe := λ _ _, clean_pipe;
     tar_add := λ _ _ _, TarDone 1024 |}.

(** A host with the database client tools and no [gzip]. *)
Definition gzipless_host : env :=
  {| clock := sample_clock;
     on_path := λ prog, negb (String.eqb prog "gzip");
     pipe := λ _ _, clean_pipe;
     tar_add := λ _ _ _, TarDone 1024 |}.

(** What a dump tool writes when it reports in Latin-1: the byte [E9] is
    not UTF-8. *)
Definition garbled_pipe : pipe_result :=
  {| dump_returncode := 2;
     dump_error := String (Ascii.ascii_of_nat 233) "chec";
     gzip_returncode := 0; gzip_error := ""; written := 20 |}.

(** A host with the tools, whose dump tools fail and report in Latin-1. *)
Definition garbling_host : env :=
  {| clock := sample_clock;
     on_path := λ _, true;
     pipe := λ _ _, garbled_pipe;
     tar_add := λ _ _ _, TarDone 1024 |}.

(** A host with the tools, whose database servers refuse the user. *)
Definition refusing_host : env :=
  {| clock := sample_clock;
     on_path := λ _, true;
     pipe := λ _ _, refused_pipe;
     tar_add := λ _ _ _, TarDone 1024 |}.

Definition shop_db (db_type : string) : dict :=
  list_to_map [("name", VStr "shop"); ("type", VStr db_type);
               ("host", VStr "localhost"); ("port", VInt 3306);
               ("user", VStr "backup"); ("password", VStr "secret");
               ("database", VStr "shopdb"); ("enabled", VBool true)].

Definition config_of (sites dbs : list dict) : Configuration :=
  {| backup_dir := Some "backups"; retention_days := Some 7;
     compression := Some "gz"; websites := Some sites;
     databases := Some dbs; notifications := None |}.

Definition manager_of (sites dbs : list dict) : BackupManager :=
  {| self_config := config_of sites dbs; self_backup_dir := "backups" |}.

(** A world whose backup directory exists and is empty. *)
Definition start : world :=
  {| fs := {[ "backups" := ∅ ]}; docs := ∅; reads := 0; log := [];
     procs := []; stdout := [] |}.

Definition blog_site : dict :=
  list_to_map [("name", VStr "blog"); ("path", VStr "/var/www/blog");
               ("enabled", VBool true)].

Definition untyped_db : dict := delete "type" (shop_db "mysql").

(** A backup directory holding one dump written long ago and one written a
    day ago. *)
Definition aged : world :=
  {| fs := {[ "backups" :=
       {[ "shop_mysql_20230101_000000.sql.gz"
            := File {| st_size := 4096; st_mtime := inject_Z 1672531200 |};
          "shop_mysql_20231113_221320.sql.gz"
            := File {| st_size := 4096; st_mtime := inject_Z 1699913600 |} ]} ]};
     docs := ∅; reads := 0; log := []; procs := []; stdout := [] |}.

(** A world whose configuration path holds text that is not JSON. *)
Definition garbled : world :=
  {| fs := ∅; docs := {[ "backup_config.json" := NotJson ]};
     reads := 0; log := []; procs := []; stdout := [] |}.

Definition plain_run : args :=
  {| args_config := "backup_config.json"; args_init := false;
     args_version := false |}.

Definition init_run : args :=
  {| args_config := "backup_config.json"; args_init := true;
     args_version := false |}.


(** A world whose configuration file holds the JSON array [[]]. *)
Definition listed : world :=
  {| fs := ∅; docs := {[ "backup_config.json" := Parses (Array []) ]};
     reads := 0; log := []; procs := []; stdout := [] |}.




(** A world whose configuration document has no [backup_dir]. *)
Definition dirless : world :=
  {| fs := ∅;
     docs := {[ "backup_config.json" :=
                  Json {| backup_dir := None; retention_days := None;
                          compression := None; websites := Some [];
                          databases := None; notifications := None |} ]};
     reads := 0; log := []; procs := []; stdout := [] |}.

(** A host where every tool is found and every dump succeeds. *)
Definition working_host : env :=
  {| clock := sample_clock;
     on_path := λ _, true;
     pipe := λ _ _, clean_pipe;
     tar_add := λ _ _ _, TarDone 1024 |}.

(** A host whose disk fills up while an archive is written. *)
Definition full_disk_host : env :=
  {| clock := sample_clock;
     on_path := λ _, true;
     pipe := λ _ _, clean_pipe;
     tar_add := λ _ _ _, TarFailed 512 (Exception_ "No space left on device") |}.

(** The world [start] with the directory of the blog site. *)
Definition served : world :=
  set_fs (<["/var/www/blog" := ∅]> (fs start)) start.

(** The shop database on PostgreSQL, with no [port]. *)
Definition portless_db : dict := delete "port" (shop_db "postgresql").

(** The shop database without its [user]. *)
Definition userless_db : dict := delete "user" (shop_db "mysql").

(** The shop database with a number for [type]. *)
Definition numbered_type_db : dict := <["type" := VInt 3]> (shop_db "mysql").

(** The shop database with a number for [database]. *)
Definition numbered_db : dict := <["database" := VInt 7]> (shop_db "mysql").

(** A website entry that is only switched off. *)
Definition nameless_site : dict := {[ "enabled" := VBool false ]}.

(** The shop database without its [name]. *)
Definition nameless_db : dict := delete "name" (shop_db "postgres").

(** * Properties *)

(** ** The counting loop *)

Lemma for_each_None (backup : dict → Py (option string)) target rest counts w w' :
  backup target w = (Ret None, w') →
  for_each backup (target :: rest) counts w
  = for_each backup rest (fst counts, snd counts + 1) w'.
Proof. intros Hb. cbn [for_each]. unfold bind. by rewrite Hb. Qed.

Lemma for_each_Some (backup : dict → Py (option string)) target rest counts w w' p :
  backup target w = (Ret (Some p), w') →
  for_each backup (target :: rest) counts w
  = for_each backup rest (fst counts + 1, snd counts) w'.
Proof. intros Hb. cbn [for_each]. unfold bind. by rewrite Hb. Qed.

Lemma for_each_Raise (backup : dict → Py (option string)) target rest counts w w' e :
  backup target w = (Raise e, w') →
  for_each backup (target :: rest) counts w = (Raise e, w').
Proof. intros Hb. cbn [for_each]. unfold bind. by rewrite Hb. Qed.

Section Targets.

Context (E : env) (self : BackupManager).

(** ** Disabled targets *)

Lemma backup_website_disabled website name w :
  truthy (dict_get website "enabled" (VBool false)) = false →
  website !! "name" = Some name →
  backup_website E self website w
  = (Ret None, logged INFO (SkippingDisabledWebsite name) w).
Proof.
  intros Hen Hname. unfold backup_website. rewrite Hen. cbn [negb].
  unfold bind, subscript. by rewrite Hname.
Qed.

Lemma backup_database_disabled db_config name w :
  truthy (dict_get db_config "enabled" (VBool false)) = false →
  db_config !! "name" = Some name →
  backup_database E self db_config w
  = (Ret None, logged INFO (SkippingDisabledDatabase name) w).
Proof.
  intros Hen Hname. unfold backup_database. rewrite Hen. cbn [negb].
  unfold bind, subscript. by rewrite Hname.
Qed.

(** ** Website targets *)


(** ** Dispatch on the database type *)

Lemma backup_database_enabled db_config s w :
  truthy (dict_get db_config "enabled" (VBool false)) = true →
  dict_get db_config "type" (VStr "mysql") = VStr s →
  backup_database E self db_config w
  = if mysql_type (lower s) then backup_mysql_database E self db_config w
    else if postgresql_type (lower s)
         then backup_postgresql_database E self db_config w
         else (Ret None, logged ERROR (UnsupportedDatabaseType (lower s)) w).
Proof.
  intros Hen Hty. unfold backup_database. rewrite Hen, Hty. cbn [negb].
  unfold bind, py_lower, ret, mysql_type, postgresql_type.
  destruct (_ || _)%bool; [done|]. by destruct (_ || _)%bool.
Qed.

(** C6 (amended): for an enabled database target whose [type] is the
    string [s], the dispatch looks at [s] in lower case only: [mysql] and
    [mariadb] run the MySQL path, [postgresql] and [postgres] the PostgreSQL
    path, and for every other string the target returns [None] after one
    error line, with the filesystem and the list of started processes as
    they were, and adds one to the failure count of the loop of
    [run_backup]. *)
Theorem dispatch_on_lowercase_type db_config s w :
  truthy (dict_get db_config "enabled" (VBool false)) = true →
  db_config !! "type" = Some (VStr s) →
  (lower s = "mysql" ∨ lower s = "mariadb" →
     backup_database E self db_config w
     = backup_mysql_database E self db_config w)
  ∧ (lower s = "postgresql" ∨ lower s = "postgres" →
     backup_database E self db_config w
     = backup_postgresql_database E self db_config w)
  ∧ (lower s ∉ ["mysql"; "mariadb"; "postgresql"; "postgres"] →
     ∃ w', backup_database E self db_config w = (Ret None, w')
           ∧ fs w' = fs w
           ∧ procs w' = procs w
           ∧ log w' = log w ++ [(ERROR, UnsupportedDatabaseType (lower s))]
           ∧ ∀ rest counts,
               for_each (backup_database E self) (db_config :: rest) counts w
               = for_each (backup_database E self) rest
                          (fst counts, snd counts + 1) w').
Proof.
  intros Hen Hty.
  assert (Hget : dict_get db_config "type" (VStr "mysql") = VStr s)
    by (unfold dict_get; by rewrite Hty).
  pose proof (backup_database_enabled db_config s w Hen Hget) as Hrun.
  split; [|split].
  - intros [Hl|Hl]; rewrite Hrun, Hl; reflexivity.
  - intros [Hl|Hl]; rewrite Hrun, Hl; reflexivity.
  - intros Hother.
    assert (mysql_type (lower s) = false) as Hm.
    { unfold mysql_type. apply orb_false_intro; apply String.eqb_neq;
        intros Heq; apply Hother; rewrite Heq; set_solver. }
    assert (postgresql_type (lower s) = false) as Hp.
    { unfold postgresql_type. apply orb_false_intro; apply String.eqb_neq;
        intros Heq; apply Hother; rewrite Heq; set_solver. }
    rewrite Hm, Hp in Hrun.
    eexists. split; [exact Hrun|]. repeat split.
    intros rest counts. by apply for_each_None.
Qed.

(** C10: an enabled database target with no [type] key is handled as
    MySQL: [backup_database] does what [backup_mysql_database] does. *)
Theorem missing_type_is_mysql db_config w :
  truthy (dict_get db_config "enabled" (VBool false)) = true →
  db_config !! "type" = None →
  backup_database E self db_config w
  = backup_mysql_database E self db_config w.
Proof.
  intros Hen Hty.
  rewrite (backup_database_enabled db_config "mysql" w Hen).
  - reflexivity.
  - unfold dict_get. by rewrite Hty.
Qed.

End Targets.

(** ** Retention sweep *)

Lemma entries_set_fs w dir es :
  entries (set_fs (<[dir := es]> (fs w)) w) dir = es.
Proof. unfold entries, set_fs; cbn. by rewrite lookup_insert_eq. Qed.

Lemma entries_logged l m w dir : entries (logged l m w) dir = entries w dir.
Proof. reflexivity. Qed.

Lemma fs_set_fs_ne w dir es d :
  d ≠ dir → fs (set_fs (<[dir := es]> (fs w)) w) !! d = fs w !! d.
Proof. intros Hne. unfold set_fs; cbn. by rewrite lookup_insert_ne. Qed.

Lemma bool_decide_elem_of_cons_ne (n name : string) (rest : list string) :
  n ≠ name → bool_decide (n ∈ name :: rest) = bool_decide (n ∈ rest).
Proof.
  intros Hne. apply bool_decide_ext. rewrite elem_of_cons.
  split; [intros [Heq|Hin]; [by destruct Hne | exact Hin] | by right].
Qed.

Lemma sweep_spec dir current_time retention_seconds backup_files :
  ∀ counts w,
    NoDup backup_files →
    ∃ counts' w',
      sweep dir current_time retention_seconds backup_files counts w
      = (Ret counts', w')
      ∧ (∀ n, entries w' dir !! n
              = match entries w dir !! n with
                | Some nd =>
                    if (bool_decide (n ∈ backup_files)
                        && expired current_time retention_seconds n nd)%bool
                    then None else Some nd
                | None => None
                end)
      ∧ same_outside dir w w'.
Proof.
  induction backup_files as [|name rest IH]; intros counts w Hnd.
  - exists counts, w. split; [done|]. split; [|done].
    intros n. by destruct (entries w dir !! n).
  - apply NoDup_cons in Hnd as [Hfresh Hnd].
    cbn [sweep]. unfold bind at 1. unfold is_file.
    destruct (entries w dir !! name) as [nd|] eqn:Hname.
    + assert (Hskip :
        expired current_time retention_seconds name nd = false →
        ∃ counts' w',
          sweep dir current_time retention_seconds rest counts w
          = (Ret counts', w')
          ∧ (∀ n, entries w' dir !! n
                  = match entries w dir !! n with
                    | Some nd0 =>
                        if (bool_decide (n ∈ name :: rest)
                            && expired current_time retention_seconds n nd0)%bool
                        then None else Some nd0
                    | None => None
                    end)
          ∧ same_outside dir w w').
      { intros Hexp. destruct (IH counts w Hnd) as (c' & w' & Hrun & Hlook & Hout).
        exists c', w'. split; [done|]. split; [|done].
        intros n. rewrite Hlook. destruct (decide (n = name)) as [->|Hne].
        - rewrite Hname, Hexp. by rewrite !andb_false_r.
        - destruct (entries w dir !! n); [|done].
          by rewrite (bool_decide_elem_of_cons_ne n name rest). }
      destruct nd as [f|f]; cbn [andb].
      { by apply Hskip. }
      destruct (recognized name) eqn:Hrec; [|apply Hskip; cbn; by rewrite Hrec].
      unfold bind at 1. unfold stat at 1. rewrite Hname.
      destruct (older_than _ _) eqn:Hold;
        [|apply Hskip; cbn; by rewrite Hrec, Hold].
      unfold bind at 1. unfold stat at 1. rewrite Hname.
      unfold bind at 1. unfold unlink at 1. rewrite Hname.
      unfold bind at 1. unfold logging at 1.
      set (w1 := logged INFO (RemovedOldBackup name)
                   (set_fs (<[dir := delete name (entries w dir)]> (fs w)) w)).
      destruct (IH (fst counts + 1, snd counts + st_size f) w1 Hnd)
        as (c' & w' & Hrun & Hlook & Hout).
      exists c', w'. split; [done|]. split.
      * intros n. rewrite Hlook. unfold w1.
        rewrite entries_logged, entries_set_fs.
        destruct (decide (n = name)) as [->|Hne].
        -- rewrite lookup_delete_eq, Hname. cbn [expired]. rewrite Hrec, Hold.
           by rewrite bool_decide_eq_true_2 by apply list_elem_of_here.
        -- rewrite lookup_delete_ne by done.
           destruct (entries w dir !! n); [|done].
           by rewrite (bool_decide_elem_of_cons_ne n name rest).
      * destruct Hout as (Hfs & Hdocs & Hreads & Hprocs & Hout).
        split; [|done]. intros d Hd. rewrite Hfs by done.
        unfold w1. cbn [logged fs]. by apply fs_set_fs_ne.
    + cbn [andb].
      destruct (IH counts w Hnd) as (c' & w' & Hrun & Hlook & Hout).
      exists c', w'. split; [done|]. split; [|done].
      intros n. rewrite Hlook. destruct (decide (n = name)) as [->|Hne].
      * by rewrite Hname.
      * destruct (entries w dir !! n); [|done].
        by rewrite (bool_decide_elem_of_cons_ne n name rest).
Qed.

Lemma from_last_dot_app s t u :
  from_last_dot t = Some u → from_last_dot (s +:+ t) = Some u.
Proof.
  intros Ht. induction s as [|c s IH]; [exact Ht|].
  change (String c s +:+ t) with (String c (s +:+ t)).
  cbn [from_last_dot]. by rewrite IH.
Qed.

(** A name made of a non-empty stem and one of the three extensions has
    that extension as its [suffix]. *)
Lemma suffix_extension stem ext :
  stem ≠ "" → ext ∈ [".gz"; ".sql"; ".tar"] →
  suffix (stem +:+ ext) = ext ∧ recognized (stem +:+ ext) = true.
Proof.
  intros Hstem Hext.
  assert (Hs : suffix (stem +:+ ext) = ext).
  { destruct stem as [|c stem]; [done|].
    change (String c stem +:+ ext) with (String c (stem +:+ ext)).
    cbn [suffix].
    apply list_elem_of_In in Hext. cbn in Hext.
    destruct Hext as [<-|[<-|[<-|[]]]].
    - by rewrite (from_last_dot_app stem ".gz" ".gz" eq_refl).
    - by rewrite (from_last_dot_app stem ".sql" ".sql" eq_refl).
    - by rewrite (from_last_dot_app stem ".tar" ".tar" eq_refl). }
  split; [exact Hs|].
  unfold recognized. rewrite Hs. by apply bool_decide_eq_true_2.
Qed.

Lemma older_than_spec (file_age : Q) (retention_seconds : Z) :
  older_than file_age retention_seconds = true
  ↔ (inject_Z retention_seconds < file_age)%Q.
Proof.
  unfold older_than. rewrite negb_true_iff, <- not_true_iff_false, Qle_bool_iff.
  split; [apply Qnot_le_lt | apply Qlt_not_le].
Qed.

Section Sweep.

Context (E : env) (self : BackupManager).

Let dir := self_backup_dir self.
Let days := default 7 (retention_days (self_config self)).

(** [cleanup_old_backups] returns, and leaves in the backup directory
    exactly the entries that were not [expired] at the time it read the
    clock; the rest of the world but the log and the clock is as it was. *)
Lemma cleanup_old_backups_spec w :
  ∃ w', cleanup_old_backups E self w = (Ret tt, w')
        ∧ (∀ n, entries w' dir !! n
                = match entries w dir !! n with
                  | Some nd =>
                      if expired (epoch (clock E (reads w))) (days * 24 * 3600) n nd
                      then None else Some nd
                  | None => None
                  end)
        ∧ (∀ d, d ≠ dir → fs w' !! d = fs w !! d)
        ∧ docs w' = docs w ∧ procs w' = procs w ∧ stdout w' = stdout w.
Proof.
  unfold cleanup_old_backups. fold dir. fold days.
  unfold bind at 1. unfold now at 1.
  unfold bind at 1. unfold logging at 1.
  unfold bind at 1. unfold glob_star at 1.
  unfold bind at 1.
  set (w1 := logged INFO (CleaningUpBackupsOlderThan days) _).
  assert (Hent : entries w1 dir = entries w dir) by reflexivity.
  destruct (sweep_spec dir (epoch (clock E (reads w))) (days * 24 * 3600)
              (map fst (map_to_list (entries w1 dir))) (0, 0) w1)
    as (c' & w' & Hrun & Hlook & Hfs & Hdocs & Hreads & Hprocs & Hout).
  { apply NoDup_fst_map_to_list. }
  rewrite Hrun.
  assert (Hgoal : ∀ n, entries w' dir !! n
                = match entries w dir !! n with
                  | Some nd =>
                      if expired (epoch (clock E (reads w))) (days * 24 * 3600) n nd
                      then None else Some nd
                  | None => None
                  end).
  { intros n. rewrite Hlook, Hent.
    destruct (entries w dir !! n) as [nd|] eqn:Hn; [|done].
    rewrite bool_decide_eq_true_2; [done|].
    apply list_elem_of_fmap. exists (n, nd). split; [done|].
    by apply elem_of_map_to_list. }
  destruct (fst c' >? 0); eexists; (split; [reflexivity|]); cbn; auto.
Qed.

(** C4: the retention sweep returns, and for every regular file [name]
    directly under the backup directory: the file is gone afterwards exactly
    when its suffix is one of [.gz], [.sql], [.tar] and its age, the clock
    reading minus its modification time, exceeds [retention_days * 86400]
    seconds; otherwise it is still there, unchanged.  In particular a
    recognized file dated [retention_days + 1] days before the clock reading
    is removed, one dated [retention_days - 1] days before it stays, and a
    file with another suffix stays whatever its age. *)
Theorem retention_sweep_removes_exactly_the_expired w name f :
  entries w dir !! name = Some (File f) →
  let current_time := epoch (clock E (reads w)) in
  ∃ w', cleanup_old_backups E self w = (Ret tt, w')
    ∧ (entries w' dir !! name = None
       ↔ suffix name ∈ [".gz"; ".sql"; ".tar"]
         ∧ (inject_Z (days * 86400) < current_time - st_mtime f)%Q)
    ∧ (entries w' dir !! name = None
       ∨ entries w' dir !! name = Some (File f))
    ∧ (suffix name ∈ [".gz"; ".sql"; ".tar"] →
       (st_mtime f == current_time - inject_Z ((days + 1) * 86400))%Q →
       entries w' dir !! name = None)
    ∧ (suffix name ∈ [".gz"; ".sql"; ".tar"] →
       (st_mtime f == current_time - inject_Z ((days - 1) * 86400))%Q →
       entries w' dir !! name = Some (File f))
    ∧ (suffix name ∉ [".gz"; ".sql"; ".tar"] →
       entries w' dir !! name = Some (File f)).
Proof.
  intros Hname current_time.
  destruct (cleanup_old_backups_spec w) as (w' & Hrun & Hlook & _).
  exists w'. split; [exact Hrun|].
  specialize (Hlook name). rewrite Hname in Hlook. cbn [expired] in Hlook.
  fold current_time in Hlook.
  replace (days * 24 * 3600) with (days * 86400) in Hlook by lia.
  assert (Hiff : entries w' dir !! name = None
       ↔ suffix name ∈ [".gz"; ".sql"; ".tar"]
         ∧ (inject_Z (days * 86400) < current_time - st_mtime f)%Q).
  { rewrite Hlook. destruct (recognized name && _)%bool eqn:Hexp.
    - apply andb_true_iff in Hexp as [Hrec Hold].
      apply bool_decide_eq_true_1 in Hrec. apply older_than_spec in Hold.
      by split.
    - split; [done|]. intros [Hrec Hold]. exfalso.
      apply andb_false_iff in Hexp as [Hexp|Hexp].
      + by apply bool_decide_eq_false_1 in Hexp.
      + apply older_than_spec in Hold. congruence. }
  assert (Hor : entries w' dir !! name = None
                ∨ entries w' dir !! name = Some (File f)).
  { rewrite Hlook. destruct (recognized name && _)%bool; auto. }
  split; [exact Hiff|]. split; [exact Hor|]. split; [|split].
  - intros Hrec Hm. apply Hiff. split; [done|].
    rewrite Hm. rewrite !inject_Z_mult, inject_Z_plus.
    change (inject_Z 86400) with (86400 # 1)%Q.
    change (inject_Z 1) with (1 # 1)%Q. lra.
  - intros Hrec Hm. destruct Hor as [Hgone|Hkept]; [|done]. exfalso.
    apply Hiff in Hgone as [_ Hold]. revert Hold.
    rewrite Hm. replace (days - 1) with (days + - (1)) by lia.
    rewrite !inject_Z_mult, inject_Z_plus, inject_Z_opp.
    change (inject_Z 86400) with (86400 # 1)%Q.
    change (inject_Z 1) with (1 # 1)%Q. lra.
  - intros Hrec. destruct Hor as [Hgone|Hkept]; [|done].
    apply Hiff in Hgone as [? _]. done.
Qed.

End Sweep.

(** ** Database dumps *)

Section Dumps.

Context (E : env).

Lemma all_str_VStr (args : list string) w :
  all_str (VStr <$> args) w = (Ret args, w).
Proof.
  induction args as [|a args IH]; [done|].
  cbn [fmap list_fmap all_str]. unfold bind at 1. cbn [as_str ret].
  unfold bind at 1. fold (@fmap list _ _ _ VStr args). by rewrite IH.
Qed.

Lemma all_env_VStr (vars : list (string * string)) w :
  all_env (prod_map id VStr <$> vars) w = (Ret vars, w).
Proof.
  induction vars as [|[k v] vars IH]; [done|].
  cbn [fmap list_fmap all_env prod_map fst snd id]. unfold bind at 1.
  cbn [as_str ret]. unfold bind at 1.
  fold (@fmap list _ _ _ (prod_map id VStr) vars). by rewrite IH.
Qed.

(** [Popen] on strings, with the executable on the search path. *)
Lemma Popen_started (args : list string) (vars : list (string * string)) w :
  on_path E (List.hd "" args) = true →
  Popen E (VStr <$> args) (prod_map id VStr <$> vars) w
  = (Ret {| argv := args; environ := vars |},
     spawned {| argv := args; environ := vars |} w).
Proof.
  intros Hon. unfold Popen. unfold bind at 1. rewrite all_str_VStr.
  unfold bind at 1. rewrite all_env_VStr. by rewrite Hon.
Qed.

(** [Popen] on strings, with the executable missing: nothing is started. *)
Lemma Popen_not_found (args : list string) (vars : list (string * string)) w :
  on_path E (List.hd "" args) = false →
  Popen E (VStr <$> args) (prod_map id VStr <$> vars) w
  = (Raise FileNotFoundError, w).
Proof.
  intros Hon. unfold Popen. unfold bind at 1. rewrite all_str_VStr.
  unfold bind at 1. rewrite all_env_VStr. by rewrite Hon.
Qed.

Lemma open_wb_creates dir name w es :
  fs w !! dir = Some es →
  (∀ f, es !! name ≠ Some (Dir f)) →
  open_wb E dir name w = (Ret tt, put_file E dir name 0 w).
Proof.
  intros Hdir Hnot. unfold open_wb. rewrite Hdir.
  destruct (es !! name) as [[f|f]|] eqn:Hn; [|done..].
  by destruct (Hnot f).
Qed.

Lemma entries_put_file dir name size w :
  entries (put_file E dir name size w) dir
  = <[name := File {| st_size := size;
                      st_mtime := epoch (clock E (reads w)) |}]>
      (entries w dir).
Proof. unfold put_file. by rewrite entries_set_fs. Qed.

Lemma fs_put_file_ne dir name size w d :
  d ≠ dir → fs (put_file E dir name size w) !! d = fs w !! d.
Proof. intros Hne. unfold put_file. by apply fs_set_fs_ne. Qed.

(** The pipe with both executables present: the destination holds what the
    compressor wrote, two processes were started, and the outcome is that of
    the two return-code tests. *)
Lemma dump_through_gzip_spec dir name tool args vars w es :
  fs w !! dir = Some es →
  (∀ f, es !! name ≠ Some (Dir f)) →
  on_path E (List.hd "" args) = true →
  on_path E "gzip" = true →
  let p := {| argv := args; environ := vars |} in
  let r := pipe E (reads w) p in
  ∃ w',
    dump_through_gzip E dir name tool (VStr <$> args) (prod_map id VStr <$> vars) w
    = (if negb (dump_returncode r =? 0)
       then Raise (stage_error tool (dump_error r))
       else if negb (gzip_returncode r =? 0)
            then Raise (stage_error "gzip" (gzip_error r))
            else Ret tt,
       w')
    ∧ entries w' dir
      = <[name := File {| st_size := written r;
                          st_mtime := epoch (clock E (reads w)) |}]> es
    ∧ (∀ d, d ≠ dir → fs w' !! d = fs w !! d)
    ∧ procs w' = procs w ++ [p; {| argv := ["gzip"]; environ := [] |}]
    ∧ log w' = log w ∧ reads w' = reads w ∧ docs w' = docs w
    ∧ stdout w' = stdout w.
Proof.
  intros Hdir Hnot Htool Hgzip p r.
  unfold dump_through_gzip.
  unfold bind at 1. rewrite (open_wb_creates dir name w es Hdir Hnot).
  unfold bind at 1. rewrite (Popen_started args vars _ Htool).
  unfold bind at 1.
  change [VStr "gzip"] with (VStr <$> ["gzip"]).
  change (@nil (string * scalar)) with (prod_map id VStr <$> @nil (string * string)).
  rewrite (Popen_started ["gzip"] [] _ Hgzip).
  unfold bind at 1. unfold communicate at 1.
  fold p.
  set (w1 := spawned _ (spawned p (put_file E dir name 0 w))).
  change (pipe E (reads w1) p) with r.
  set (w' := put_file E dir name (written r) w1).
  assert (Hent : entries w' dir
      = <[name := File {| st_size := written r;
                          st_mtime := epoch (clock E (reads w)) |}]> es).
  { unfold w'. rewrite entries_put_file.
    change (entries w1 dir) with (entries (put_file E dir name 0 w) dir).
    rewrite entries_put_file, insert_insert_eq. unfold entries.
    by rewrite Hdir. }
  assert (Hfs : ∀ d, d ≠ dir → fs w' !! d = fs w !! d).
  { intros d Hd. unfold w'. rewrite fs_put_file_ne by done.
    change (fs w1) with (fs (put_file E dir name 0 w)).
    by rewrite fs_put_file_ne. }
  exists w'. split; [|split; [exact Hent|split; [exact Hfs|]]].
  - unfold bind, decode, stage_error.
    destruct (negb (dump_returncode r =? 0)).
    { by destruct (utf8 (dump_error r)). }
    cbn [ret]. destruct (negb (gzip_returncode r =? 0)); [|done].
    by destruct (utf8 (gzip_error r)).
  - unfold w'. cbn. by rewrite <- app_assoc.
Qed.

End Dumps.

Section DumpOutcome.

Context (E : env).

Lemma dump_through_gzip_failure dir name tool args vars w es :
  fs w !! dir = Some es →
  (∀ f, es !! name ≠ Some (Dir f)) →
  on_path E (List.hd "" args) = true →
  on_path E "gzip" = true →
  let p := {| argv := args; environ := vars |} in
  let r := pipe E (reads w) p in
  dump_returncode r ≠ 0 ∨ gzip_returncode r ≠ 0 →
  ∃ w',
    dump_through_gzip E dir name tool (VStr <$> args) (prod_map id VStr <$> vars) w
    = (Raise (pipe_error tool r), w')
    ∧ entries w' dir
      = <[name := File {| st_size := written r;
                          st_mtime := epoch (clock E (reads w)) |}]> es
    ∧ (∀ d, d ≠ dir → fs w' !! d = fs w !! d)
    ∧ procs w' = procs w ++ [p; gzip_process]
    ∧ log w' = log w ∧ reads w' = reads w ∧ docs w' = docs w
    ∧ stdout w' = stdout w.
Proof.
  intros Hdir Hnot Htool Hgzip p r Hfail.
  destruct (dump_through_gzip_spec E dir name tool args vars w es
              Hdir Hnot Htool Hgzip) as (w' & Hrun & Hrest).
  exists w'. split; [|exact Hrest].
  rewrite Hrun. fold p. fold r. unfold pipe_error.
  destruct (dump_returncode r =? 0) eqn:Hd; cbn [negb]; [|done].
  destruct (gzip_returncode r =? 0) eqn:Hg; cbn [negb]; [|done].
  apply Z.eqb_eq in Hd, Hg. by destruct Hfail.
Qed.

(** What [pipe_error] can be: both database paths handle either form in
    their [except Exception] clause. *)
Lemma pipe_error_cases tool r :
  (∃ msg, pipe_error tool r = Exception_ msg)
  ∨ pipe_error tool r = UnicodeDecodeError.
Proof.
  unfold pipe_error, stage_error.
  destruct (dump_returncode r =? 0);
    [destruct (utf8 (gzip_error r))|destruct (utf8 (dump_error r))]; eauto.
Qed.

(** The dump executable is missing: the destination was already opened
    for writing, and nothing was started. *)
Lemma dump_through_gzip_not_found dir name tool args vars w es :
  fs w !! dir = Some es →
  (∀ f, es !! name ≠ Some (Dir f)) →
  on_path E (List.hd "" args) = false →
  dump_through_gzip E dir name tool (VStr <$> args) (prod_map id VStr <$> vars) w
  = (Raise FileNotFoundError, put_file E dir name 0 w).
Proof.
  intros Hdir Hnot Htool. unfold dump_through_gzip.
  unfold bind at 1. rewrite (open_wb_creates E dir name w es Hdir Hnot).
  unfold bind at 1. by rewrite (Popen_not_found E args vars _ Htool).
Qed.

(** The handler of [except Exception] in both database paths: log the
    failure, remove the destination if it exists. *)
Lemma remove_partial_output dir name w es f :
  entries w dir = <[name := File f]> es →
  ∃ w',
    (present <- exists_in dir name ;;
     (if present then unlink dir name else ret tt) ;;;
     ret (@None string)) w
    = (Ret None, w')
    ∧ entries w' dir = delete name es
    ∧ (∀ d, d ≠ dir → fs w' !! d = fs w !! d)
    ∧ procs w' = procs w ∧ log w' = log w ∧ reads w' = reads w
    ∧ docs w' = docs w ∧ stdout w' = stdout w.
Proof.
  intros Hent. unfold bind at 1. unfold exists_in at 1.
  rewrite Hent, lookup_insert_eq.
  rewrite bool_decide_eq_true_2 by (by eexists).
  unfold bind at 1. unfold unlink at 1. rewrite Hent, lookup_insert_eq.
  eexists. split; [reflexivity|]. split; [|split; [|done]].
  - by rewrite entries_set_fs, delete_insert_eq.
  - intros d Hd. by apply fs_set_fs_ne.
Qed.

End DumpOutcome.

Ltac run_subscript H :=
  unfold bind at 1; unfold subscript at 1; rewrite H; cbn [ret].

Section MySQLPath.

Context (E : env) (self : BackupManager) (db_config : dict).
Context (name host port user password : scalar) (database : string).
Context (Hname : db_config !! "name" = Some name)
        (Hhost : db_config !! "host" = Some host)
        (Hport : db_config !! "port" = Some port)
        (Huser : db_config !! "user" = Some user)
        (Hpassword : db_config !! "password" = Some password)
        (Hdatabase : db_config !! "database" = Some (VStr database)).

Let dir := self_backup_dir self.

Lemma backup_mysql_database_failure w es :
  let backup_name := mysql_backup_name name (stamp (clock E (reads w))) in
  let r := pipe E (S (reads w))
                (mysqldump_process host port user password database) in
  fs w !! dir = Some es →
  (∀ f, es !! backup_name ≠ Some (Dir f)) →
  on_path E "mysqldump" = true →
  on_path E "gzip" = true →
  dump_returncode r ≠ 0 ∨ gzip_returncode r ≠ 0 →
  ∃ w',
    backup_mysql_database E self db_config w = (Ret None, w')
    ∧ entries w' dir = delete backup_name es
    ∧ (∀ d, d ≠ dir → fs w' !! d = fs w !! d)
    ∧ log w' = log w ++
        [(INFO, BackingUpMySQLDatabase (VStr database));
         (ERROR, MySQLBackupFailed (pipe_error "mysqldump" r))].
Proof.
  intros backup_name r Hdir Hnot Htool Hgzip Hfail.
  unfold backup_mysql_database, get_timestamp.
  unfold bind at 1. unfold bind at 1. unfold now at 1. cbn [ret].
  run_subscript Hname. run_subscript Hdatabase.
  unfold bind at 1. unfold logging at 1. unfold try_except.
  run_subscript Hhost. run_subscript Hport. run_subscript Huser.
  run_subscript Hpassword. run_subscript Hdatabase.
  unfold bind at 1. fold dir. fold (mysql_backup_name name (stamp (clock E (reads w)))).
  fold backup_name.
  set (w0 := logged INFO _ (ticked w)).
  destruct (dump_through_gzip_failure E dir backup_name "mysqldump"
              (argv (mysqldump_process host port user password database)) []
              w0 es Hdir Hnot Htool Hgzip Hfail)
    as (w1 & Hrun & Hent & Hfs & _ & Hlog & _).
  change (mysqldump_cmd host port user password (VStr database))
    with (VStr <$> argv (mysqldump_process host port user password database)).
  change (@nil (string * scalar))
    with (prod_map id VStr <$> @nil (string * string)).
  rewrite Hrun.
  change (pipe_error "mysqldump" (pipe E _ _))
    with (pipe_error "mysqldump" r).
  destruct (pipe_error_cases "mysqldump" r) as [[msg ->]| ->];
    unfold bind at 1; unfold logging at 1;
    set (w2 := logged ERROR _ w1).
  all: destruct (remove_partial_output (self_backup_dir self) backup_name w2
                  es _ Hent)
         as (w3 & Hrm & Hent3 & Hfs3 & _ & Hlog3 & _).
  all: fold dir in Hrm; rewrite Hrm.
  all: exists w3; split; [done|]; split; [exact Hent3|]; split.
  all: try (intros d Hd; rewrite Hfs3 by done; unfold w2; cbn [logged fs];
            by rewrite Hfs).
  all: rewrite Hlog3; unfold w2; cbn [logged log]; rewrite Hlog; unfold w0; cbn;
         by rewrite <- app_assoc.
Qed.

Lemma backup_mysql_database_tool_missing w es :
  let backup_name := mysql_backup_name name (stamp (clock E (reads w))) in
  fs w !! dir = Some es →
  (∀ f, es !! backup_name ≠ Some (Dir f)) →
  on_path E "mysqldump" = false →
  ∃ w',
    backup_mysql_database E self db_config w = (Ret None, w')
    ∧ entries w' dir
      = <[backup_name := File {| st_size := 0;
                                 st_mtime := epoch (clock E (S (reads w))) |}]> es
    ∧ procs w' = procs w
    ∧ log w' = log w ++
        [(INFO, BackingUpMySQLDatabase (VStr database));
         (ERROR, MysqldumpNotFound)].
Proof.
  intros backup_name Hdir Hnot Htool.
  unfold backup_mysql_database, get_timestamp.
  unfold bind at 1. unfold bind at 1. unfold now at 1. cbn [ret].
  run_subscript Hname. run_subscript Hdatabase.
  unfold bind at 1. unfold logging at 1. unfold try_except.
  run_subscript Hhost. run_subscript Hport. run_subscript Huser.
  run_subscript Hpassword. run_subscript Hdatabase.
  unfold bind at 1. fold dir. fold (mysql_backup_name name (stamp (clock E (reads w)))).
  fold backup_name.
  set (w0 := logged INFO _ (ticked w)).
  change (mysqldump_cmd host port user password (VStr database))
    with (VStr <$> argv (mysqldump_process host port user password database)).
  change (@nil (string * scalar))
    with (prod_map id VStr <$> @nil (string * string)).
  rewrite (dump_through_gzip_not_found E dir backup_name "mysqldump"
             (argv (mysqldump_process host port user password database)) []
             w0 es Hdir Hnot Htool).
  unfold bind at 1. unfold logging at 1. cbn [ret].
  eexists. split; [reflexivity|]. split; [|split].
  - cbn [logged]. rewrite (entries_logged ERROR MysqldumpNotFound).
    rewrite entries_put_file. unfold entries, w0. cbn. by rewrite Hdir.
  - reflexivity.
  - cbn. by rewrite <- app_assoc.
Qed.

End MySQLPath.

Section PostgreSQLPath.

Context (E : env) (self : BackupManager) (db_config : dict).
Context (name host user : scalar) (password database : string).
Context (Hname : db_config !! "name" = Some name)
        (Hhost : db_config !! "host" = Some host)
        (Huser : db_config !! "user" = Some user)
        (Hpassword : db_config !! "password" = Some (VStr password))
        (Hdatabase : db_config !! "database" = Some (VStr database)).

Let dir := self_backup_dir self.
Let port := dict_get db_config "port" (VInt 5432).

Lemma backup_postgresql_database_failure w es :
  let backup_name := postgresql_backup_name name (stamp (clock E (reads w))) in
  let r := pipe E (S (reads w))
                (pg_dump_process host port user password database) in
  fs w !! dir = Some es →
  (∀ f, es !! backup_name ≠ Some (Dir f)) →
  on_path E "pg_dump" = true →
  on_path E "gzip" = true →
  dump_returncode r ≠ 0 ∨ gzip_returncode r ≠ 0 →
  ∃ w',
    backup_postgresql_database E self db_config w = (Ret None, w')
    ∧ entries w' dir = delete backup_name es
    ∧ (∀ d, d ≠ dir → fs w' !! d = fs w !! d)
    ∧ log w' = log w ++
        [(INFO, BackingUpPostgreSQLDatabase (VStr database));
         (ERROR, PostgreSQLBackupFailed (pipe_error "pg_dump" r))].
Proof.
  intros backup_name r Hdir Hnot Htool Hgzip Hfail.
  unfold backup_postgresql_database, get_timestamp.
  unfold bind at 1. unfold bind at 1. unfold now at 1. cbn [ret].
  run_subscript Hname. run_subscript Hdatabase.
  unfold bind at 1. unfold logging at 1. unfold try_except.
  run_subscript Hpassword. run_subscript Hhost. run_subscript Huser.
  run_subscript Hdatabase.
  unfold bind at 1. fold dir. fold port.
  fold (postgresql_backup_name name (stamp (clock E (reads w)))).
  fold backup_name.
  set (w0 := logged INFO _ (ticked w)).
  destruct (dump_through_gzip_failure E dir backup_name "pg_dump"
              (argv (pg_dump_process host port user password database))
              [("PGPASSWORD", password)]
              w0 es Hdir Hnot Htool Hgzip Hfail)
    as (w1 & Hrun & Hent & Hfs & _ & Hlog & _).
  change (pg_dump_cmd host port user (VStr database))
    with (VStr <$> argv (pg_dump_process host port user password database)).
  change [("PGPASSWORD", VStr password)]
    with (prod_map id VStr <$> [("PGPASSWORD", password)]).
  rewrite Hrun.
  change (pipe_error "pg_dump" (pipe E _ _))
    with (pipe_error "pg_dump" r).
  destruct (pipe_error_cases "pg_dump" r) as [[msg ->]| ->];
    unfold bind at 1; unfold logging at 1;
    set (w2 := logged ERROR _ w1).
  all: destruct (remove_partial_output (self_backup_dir self) backup_name w2
                  es _ Hent)
         as (w3 & Hrm & Hent3 & Hfs3 & _ & Hlog3 & _).
  all: fold dir in Hrm; rewrite Hrm.
  all: exists w3; split; [done|]; split; [exact Hent3|]; split.
  all: try (intros d Hd; rewrite Hfs3 by done; unfold w2; cbn [logged fs];
            by rewrite Hfs).
  all: rewrite Hlog3; unfold w2; cbn [logged log]; rewrite Hlog; unfold w0; cbn;
         by rewrite <- app_assoc.
Qed.

Lemma backup_postgresql_database_tool_missing w es :
  let backup_name := postgresql_backup_name name (stamp (clock E (reads w))) in
  fs w !! dir = Some es →
  (∀ f, es !! backup_name ≠ Some (Dir f)) →
  on_path E "pg_dump" = false →
  ∃ w',
    backup_postgresql_database E self db_config w = (Ret None, w')
    ∧ entries w' dir
      = <[backup_name := File {| st_size := 0;
                                 st_mtime := epoch (clock E (S (reads w))) |}]> es
    ∧ procs w' = procs w
    ∧ log w' = log w ++
        [(INFO, BackingUpPostgreSQLDatabase (VStr database));
         (ERROR, PgDumpNotFound)].
Proof.
  intros backup_name Hdir Hnot Htool.
  unfold backup_postgresql_database, get_timestamp.
  unfold bind at 1. unfold bind at 1. unfold now at 1. cbn [ret].
  run_subscript Hname. run_subscript Hdatabase.
  unfold bind at 1. unfold logging at 1. unfold try_except.
  run_subscript Hpassword. run_subscript Hhost. run_subscript Huser.
  run_subscript Hdatabase.
  unfold bind at 1. fold dir. fold port.
  fold (postgresql_backup_name name (stamp (clock E (reads w)))).
  fold backup_name.
  set (w0 := logged INFO _ (ticked w)).
  change (pg_dump_cmd host port user (VStr database))
    with (VStr <$> argv (pg_dump_process host port user password database)).
  change [("PGPASSWORD", VStr password)]
    with (prod_map id VStr <$> [("PGPASSWORD", password)]).
  rewrite (dump_through_gzip_not_found E dir backup_name "pg_dump"
             (argv (pg_dump_process host port user password database))
             [("PGPASSWORD", password)] w0 es Hdir Hnot Htool).
  unfold bind at 1. unfold logging at 1. cbn [ret].
  eexists. split; [reflexivity|]. split; [|split].
  - cbn [logged]. rewrite (entries_logged ERROR PgDumpNotFound).
    rewrite entries_put_file. unfold entries, w0. cbn. by rewrite Hdir.
  - reflexivity.
  - cbn. by rewrite <- app_assoc.
Qed.

End PostgreSQLPath.

(** ** Runs over disabled targets *)

Lemma for_each_skipped (backup : dict → Py (option string))
  (skip : scalar → message) :
  (∀ target name w,
      truthy (dict_get target "enabled" (VBool false)) = false →
      target !! "name" = Some name →
      backup target w = (Ret None, logged INFO (skip name) w)) →
  ∀ targets, Forall disabled targets →
  ∀ counts w,
    ∃ w', for_each backup targets counts w
          = (Ret (fst counts, snd counts + Z.of_nat (length targets)), w')
          ∧ fs w' = fs w ∧ docs w' = docs w ∧ reads w' = reads w
          ∧ procs w' = procs w ∧ stdout w' = stdout w.
Proof.
  intros Hskip targets Hall.
  induction Hall as [|target rest [Hen [name Hname]] _ IH]; intros counts w.
  - exists w. cbn [for_each length]. unfold ret.
    replace (snd counts + Z.of_nat 0) with (snd counts) by lia.
    by destruct counts.
  - rewrite (for_each_None backup target rest counts w _
               (Hskip target name w Hen Hname)).
    destruct (IH (fst counts, snd counts + 1)
                 (logged INFO (skip name) w)) as (w' & Hrun & Hrest).
    exists w'. split; [|exact Hrest].
    rewrite Hrun. cbn [fst snd length].
    replace (snd counts + 1 + Z.of_nat (length rest))
      with (snd counts + Z.of_nat (S (length rest))) by lia.
    reflexivity.
Qed.

Section AllDisabled.

Context (E : env) (self : BackupManager).

Let sites := default [] (websites (self_config self)).
Let dbs := default [] (databases (self_config self)).

(** With every target disabled, [run_backup] returns no success and one
    failure per target, creates no file and starts no process. *)
Lemma run_backup_all_disabled w :
  Forall disabled sites →
  Forall disabled dbs →
  ∃ w', run_backup E self w
        = (Ret (0, Z.of_nat (length sites) + Z.of_nat (length dbs)), w')
        ∧ no_new_files w w'
        ∧ procs w' = procs w ∧ docs w' = docs w.
Proof.
  intros Hsites Hdbs. unfold run_backup. fold sites. fold dbs.
  do 3 (unfold bind at 1; unfold logging at 1).
  set (w0 := logged INFO Rule _).
  destruct (for_each_skipped (backup_website E self) SkippingDisabledWebsite
              (backup_website_disabled E self) sites Hsites (0, 0) w0)
    as (w1 & Hrun1 & Hfs1 & Hdocs1 & _ & Hprocs1 & _).
  unfold bind at 1. rewrite Hrun1. cbn [fst snd].
  destruct (for_each_skipped (backup_database E self) SkippingDisabledDatabase
              (backup_database_disabled E self) dbs Hdbs
              (0, 0 + Z.of_nat (length sites)) w1)
    as (w2 & Hrun2 & Hfs2 & Hdocs2 & _ & Hprocs2 & _).
  unfold bind at 1. rewrite Hrun2. cbn [fst snd].
  destruct (cleanup_old_backups_spec E self w2)
    as (w3 & Hrun3 & Hlook & Hfs3 & Hdocs3 & Hprocs3 & _).
  unfold bind at 1. rewrite Hrun3.
  do 3 (unfold bind at 1; unfold logging at 1). cbn [fst snd ret].
  eexists. split; [reflexivity|]. split; [|split].
  - intros d n nd. cbn [logged].
    change (entries (logged INFO Rule (logged INFO _ (logged INFO Rule w3))) d)
      with (entries w3 d).
    assert (Hw : ∀ d', fs w2 !! d' = fs w !! d').
    { intros d'. by rewrite Hfs2, Hfs1. }
    destruct (decide (d = self_backup_dir self)) as [->|Hd].
    + rewrite Hlook.
      replace (entries w2 (self_backup_dir self))
        with (entries w (self_backup_dir self))
        by (unfold entries; by rewrite Hw).
      destruct (entries w (self_backup_dir self) !! n) as [nd'|]; [|done].
      by destruct (expired _ _ _ _).
    + unfold entries. by rewrite Hfs3, Hw.
  - cbn. by rewrite Hprocs3, Hprocs2, Hprocs1.
  - cbn. by rewrite Hdocs3, Hdocs2, Hdocs1.
Qed.

End AllDisabled.

(** ** Configuration load and exit code *)

Lemma os_path_exists_absent config_file w :
  absent config_file w → os_path_exists config_file w = (Ret false, w).
Proof.
  intros [Hdoc Hfs]. unfold os_path_exists. rewrite Hdoc, Hfs.
  rewrite !bool_decide_eq_false_2; [done|..]; by intros [? ?].
Qed.

Lemma os_path_exists_file config_file d w :
  docs w !! config_file = Some d → os_path_exists config_file w = (Ret true, w).
Proof.
  intros Hdoc. unfold os_path_exists. rewrite Hdoc.
  by rewrite bool_decide_eq_true_2 by (by eexists).
Qed.

Lemma json_dump_absent config_file c w :
  absent config_file w →
  json_dump config_file c w
  = if in_directory config_file w
    then (Ret tt, {| fs := fs w; docs := <[config_file := Json c]> (docs w);
                     reads := reads w; log := log w; procs := procs w;
                     stdout := stdout w |})
    else (Raise FileNotFoundError, w).
Proof.
  intros [_ Hfs]. unfold json_dump. rewrite Hfs.
  by rewrite bool_decide_eq_false_2 by (by intros [? ?]).
Qed.

Lemma load_config_absent config_file w :
  absent config_file w →
  in_directory config_file w = true →
  ∃ w', load_config config_file w = (Ret (Object default_config), w')
        ∧ docs w' = <[config_file := Json default_config]> (docs w)
        ∧ fs w' = fs w ∧ procs w' = procs w ∧ log w' = log w
        ∧ reads w' = reads w.
Proof.
  intros Habsent Hdir. unfold load_config. unfold bind at 1.
  rewrite (os_path_exists_absent _ _ Habsent). cbn [negb].
  unfold create_default_config. unfold bind at 1.
  rewrite (json_dump_absent _ _ _ Habsent), Hdir.
  eexists. split; [reflexivity|]. done.
Qed.

(** Nothing at the path, and no directory to create the file in: [open]
    raises, and the world is as it was. *)
Lemma load_config_nowhere config_file w :
  absent config_file w →
  in_directory config_file w = false →
  load_config config_file w = (Raise FileNotFoundError, w).
Proof.
  intros Habsent Hdir. unfold load_config. unfold bind at 1.
  rewrite (os_path_exists_absent _ _ Habsent). cbn [negb].
  unfold create_default_config. unfold bind at 1.
  by rewrite (json_dump_absent _ _ _ Habsent), Hdir.
Qed.

Lemma load_config_not_json config_file w :
  docs w !! config_file = Some NotJson →
  load_config config_file w
  = (Raise (SystemExit 1), logged ERROR (InvalidJSON config_file) w).
Proof.
  intros Hbad. unfold load_config. unfold bind at 1.
  rewrite (os_path_exists_file _ _ _ Hbad). cbn [negb].
  unfold try_except, json_load. by rewrite Hbad.
Qed.

Lemma load_config_not_text config_file w :
  docs w !! config_file = Some NotText →
  load_config config_file w = (Raise UnicodeDecodeError, w).
Proof.
  intros Hbad. unfold load_config. unfold bind at 1.
  rewrite (os_path_exists_file _ _ _ Hbad). cbn [negb].
  unfold try_except, json_load. by rewrite Hbad.
Qed.

Lemma load_config_parses config_file v w :
  docs w !! config_file = Some (Parses v) →
  load_config config_file w = (Ret v, w).
Proof.
  intros Hdoc. unfold load_config. unfold bind at 1.
  rewrite (os_path_exists_file _ _ _ Hdoc). cbn [negb].
  unfold try_except, json_load. by rewrite Hdoc.
Qed.

Lemma load_config_json config_file c w :
  docs w !! config_file = Some (Json c) →
  load_config config_file w = (Ret (Object c), w).
Proof. apply load_config_parses. Qed.





(** ** Failed dumps *)

Lemma pipe_error_dump tool r :
  dump_returncode r ≠ 0 → pipe_error tool r = stage_error tool (dump_error r).
Proof.
  intros Hd. unfold pipe_error.
  destruct (dump_returncode r =? 0) eqn:Hz; [|done].
  by apply Z.eqb_eq in Hz.
Qed.

Lemma pipe_error_gzip tool r :
  dump_returncode r = 0 → pipe_error tool r = stage_error "gzip" (gzip_error r).
Proof. intros Hd. unfold pipe_error. by rewrite Hd. Qed.

(** C3 (the code departs from the claim): for a database target whose
    fields are present, in an existing backup directory, on the MySQL path
    and on the PostgreSQL path alike.  When both executables are found and
    the dump stage or the compression stage ends with a non-zero return
    code, [None] is returned after an error line that holds the exception of
    the stage that failed (the dump stage when both did): its message is the
    standard error of that stage when these bytes decode, and it is
    [UnicodeDecodeError] when they do not; the destination file is not in the
    backup directory afterwards, every other entry being as before.  But
    when the dump executable is not found, [None] is returned as well and the
    destination, which was opened before the process was started, stays in
    the backup directory with zero bytes. *)
Theorem dump_failure_paths E self db_config name host user database w es :
  let dir := self_backup_dir self in
  let timestamp := stamp (clock E (reads w)) in
  db_config !! "name" = Some name →
  db_config !! "host" = Some host →
  db_config !! "user" = Some user →
  db_config !! "database" = Some (VStr database) →
  fs w !! dir = Some es →
  (∀ port password,
     db_config !! "port" = Some port →
     db_config !! "password" = Some password →
     let backup_name := mysql_backup_name name timestamp in
     (∀ f, es !! backup_name ≠ Some (Dir f)) →
     let r := pipe E (S (reads w))
                   (mysqldump_process host port user password database) in
     (on_path E "mysqldump" = true →
      on_path E "gzip" = true →
      dump_returncode r ≠ 0 ∨ gzip_returncode r ≠ 0 →
      ∃ w' e,
        backup_mysql_database E self db_config w = (Ret None, w')
        ∧ log w' = log w ++ [(INFO, BackingUpMySQLDatabase (VStr database));
                             (ERROR, MySQLBackupFailed e)]
        ∧ (dump_returncode r ≠ 0 →
           e = stage_error "mysqldump" (dump_error r))
        ∧ (dump_returncode r = 0 → e = stage_error "gzip" (gzip_error r))
        ∧ entries w' dir !! backup_name = None
        ∧ entries w' dir = delete backup_name es)
     ∧ (on_path E "mysqldump" = false →
        ∃ w',
          backup_mysql_database E self db_config w = (Ret None, w')
          ∧ log w' = log w ++ [(INFO, BackingUpMySQLDatabase (VStr database));
                               (ERROR, MysqldumpNotFound)]
          ∧ entries w' dir !! backup_name
            = Some (File {| st_size := 0;
                            st_mtime := epoch (clock E (S (reads w))) |})))
  ∧ (∀ password,
     db_config !! "password" = Some (VStr password) →
     let backup_name := postgresql_backup_name name timestamp in
     (∀ f, es !! backup_name ≠ Some (Dir f)) →
     let r := pipe E (S (reads w))
                   (pg_dump_process host (dict_get db_config "port" (VInt 5432))
                                    user password database) in
     (on_path E "pg_dump" = true →
      on_path E "gzip" = true →
      dump_returncode r ≠ 0 ∨ gzip_returncode r ≠ 0 →
      ∃ w' e,
        backup_postgresql_database E self db_config w = (Ret None, w')
        ∧ log w' = log w ++ [(INFO, BackingUpPostgreSQLDatabase (VStr database));
                             (ERROR, PostgreSQLBackupFailed e)]
        ∧ (dump_returncode r ≠ 0 → e = stage_error "pg_dump" (dump_error r))
        ∧ (dump_returncode r = 0 → e = stage_error "gzip" (gzip_error r))
        ∧ entries w' dir !! backup_name = None
        ∧ entries w' dir = delete backup_name es)
     ∧ (on_path E "pg_dump" = false →
        ∃ w',
          backup_postgresql_database E self db_config w = (Ret None, w')
          ∧ log w' = log w ++ [(INFO, BackingUpPostgreSQLDatabase (VStr database));
                               (ERROR, PgDumpNotFound)]
          ∧ entries w' dir !! backup_name
            = Some (File {| st_size := 0;
                            st_mtime := epoch (clock E (S (reads w))) |}))).
Proof.
  intros dir timestamp Hname Hhost Huser Hdatabase Hdir. split.
  - intros port password Hport Hpassword backup_name Hnot r. split.
    + intros Htool Hgzip Hfail.
      destruct (backup_mysql_database_failure E self db_config name host port
                  user password database Hname Hhost Hport Huser Hpassword
                  Hdatabase w es Hdir Hnot Htool Hgzip Hfail)
        as (w' & Hrun & Hent & _ & Hlog).
      exists w', (pipe_error "mysqldump" r).
      split; [exact Hrun|]. split; [exact Hlog|].
      split; [apply pipe_error_dump|]. split; [apply pipe_error_gzip|].
      split; [|exact Hent]. fold dir in Hent. rewrite Hent.
      apply lookup_delete_eq.
    + intros Htool.
      destruct (backup_mysql_database_tool_missing E self db_config name host
                  port user password database Hname Hhost Hport Huser
                  Hpassword Hdatabase w es Hdir Hnot Htool)
        as (w' & Hrun & Hent & _ & Hlog).
      exists w'. split; [exact Hrun|]. split; [exact Hlog|].
      fold dir in Hent. rewrite Hent. apply lookup_insert_eq.
  - intros password Hpassword backup_name Hnot r. split.
    + intros Htool Hgzip Hfail.
      destruct (backup_postgresql_database_failure E self db_config name host
                  user password database Hname Hhost Huser Hpassword
                  Hdatabase w es Hdir Hnot Htool Hgzip Hfail)
        as (w' & Hrun & Hent & _ & Hlog).
      exists w', (pipe_error "pg_dump" r).
      split; [exact Hrun|]. split; [exact Hlog|].
      split; [apply pipe_error_dump|]. split; [apply pipe_error_gzip|].
      split; [|exact Hent]. fold dir in Hent. rewrite Hent.
      apply lookup_delete_eq.
    + intros Htool.
      destruct (backup_postgresql_database_tool_missing E self db_config name
                  host user password database Hname Hhost Huser Hpassword
                  Hdatabase w es Hdir Hnot Htool)
        as (w' & Hrun & Hent & _ & Hlog).
      exists w'. split; [exact Hrun|]. split; [exact Hlog|].
      fold dir in Hent. rewrite Hent. apply lookup_insert_eq.
Qed.

(** ** Runs on the default configuration *)

Lemma default_config_disabled :
  Forall disabled (default [] (websites default_config))
  ∧ Forall disabled (default [] (databases default_config)).
Proof. split; repeat constructor; by eexists. Qed.

(** C1 (the code departs from the claim): on the default configuration,
    whose website and database are both disabled, [run_backup] creates no
    file and starts no process, and returns no success and two failures:
    each skipped target is counted as failed. *)
Theorem skipped_targets_are_counted_as_failed E w :
  ∃ w', run_backup E default_manager w = (Ret (0, 2), w')
        ∧ no_new_files w w'
        ∧ procs w' = procs w.
Proof.
  destruct default_config_disabled as [Hsites Hdbs].
  destruct (run_backup_all_disabled E default_manager w Hsites Hdbs)
    as (w' & Hrun & Hfiles & Hprocs & _).
  exists w'. by rewrite Hrun.
Qed.

(** C9 (the code departs from the claim): two runs in a row on the
    default configuration, whose targets are all disabled, add no file to
    any directory, and each returns no success and two failures, not zero
    failures. *)
Theorem two_runs_all_disabled E w :
  ∃ w1 w2, run_backup E default_manager w = (Ret (0, 2), w1)
           ∧ run_backup E default_manager w1 = (Ret (0, 2), w2)
           ∧ no_new_files w w1
           ∧ no_new_files w1 w2.
Proof.
  destruct default_config_disabled as [Hsites Hdbs].
  destruct (run_backup_all_disabled E default_manager w Hsites Hdbs)
    as (w1 & Hrun1 & Hfiles1 & _).
  destruct (run_backup_all_disabled E default_manager w1 Hsites Hdbs)
    as (w2 & Hrun2 & Hfiles2 & _).
  exists w1, w2. by rewrite Hrun1, Hrun2.
Qed.

(** * Concrete runs *)

(** C2 (the code departs from the claim): on a host where [mysqldump]
    (respectively [pg_dump]) is not found, a run over one enabled MySQL
    (respectively PostgreSQL) target returns no success and one failure,
    starts no process and logs the line that names the missing tool; but the
    backup directory, empty before the run, holds afterwards a file of zero
    bytes under the name of the dump, which the handler of
    [FileNotFoundError] does not remove. *)
Theorem missing_dump_tool_leaves_an_empty_file :
  (let out := run_backup bare_host (manager_of [] [shop_db "mysql"]) start in
   out.1 = Ret (0, 1)
   ∧ log out.2 = [(INFO, Rule); (INFO, StartingBackupProcess); (INFO, Rule);
                  (INFO, BackingUpMySQLDatabase (VStr "shopdb"));
                  (ERROR, MysqldumpNotFound);
                  (INFO, CleaningUpBackupsOlderThan 7);
                  (INFO, NoOldBackupsToRemove);
                  (INFO, Rule); (INFO, BackupProcessCompleted 0 1);
                  (INFO, Rule)]
   ∧ procs out.2 = []
   ∧ entries start "backups" = ∅
   ∧ entries out.2 "backups"
     = {[ "shop_mysql_20231114_221320.sql.gz"
          := File {| st_size := 0; st_mtime := inject_Z 1700000001 |} ]})
  ∧ (let out := run_backup bare_host (manager_of [] [shop_db "postgresql"])
                           start in
     out.1 = Ret (0, 1)
     ∧ log out.2 = [(INFO, Rule); (INFO, StartingBackupProcess); (INFO, Rule);
                    (INFO, BackingUpPostgreSQLDatabase (VStr "shopdb"));
                    (ERROR, PgDumpNotFound);
                    (INFO, CleaningUpBackupsOlderThan 7);
                    (INFO, NoOldBackupsToRemove);
                    (INFO, Rule); (INFO, BackupProcessCompleted 0 1);
                    (INFO, Rule)]
     ∧ procs out.2 = []
     ∧ entries out.2 "backups"
       = {[ "shop_postgresql_20231114_221320.sql.gz"
            := File {| st_size := 0; st_mtime := inject_Z 1700000001 |} ]}).
Proof. split; cbv zeta; repeat apply conj; vm_compute; exact eq_refl. Qed.


(** [MariaDB] runs the MySQL path, [PostgreSQL] the PostgreSQL path, and
    [Oracle] neither. *)
Lemma dispatch_on_lowercase_type_witness :
  backup_database refusing_host (manager_of [] [shop_db "MariaDB"])
                  (shop_db "MariaDB") start
  = backup_mysql_database refusing_host (manager_of [] [shop_db "MariaDB"])
                          (shop_db "MariaDB") start
  ∧ backup_database refusing_host (manager_of [] [shop_db "PostgreSQL"])
                    (shop_db "PostgreSQL") start
    = backup_postgresql_database refusing_host
        (manager_of [] [shop_db "PostgreSQL"]) (shop_db "PostgreSQL") start
  ∧ ∃ w', backup_database refusing_host (manager_of [] [shop_db "Oracle"])
                          (shop_db "Oracle") start
          = (Ret None, w')
          ∧ fs w' = fs start ∧ procs w' = procs start.
Proof.
  split; [|split].
  - apply (dispatch_on_lowercase_type refusing_host
             (manager_of [] [shop_db "MariaDB"]) (shop_db "MariaDB") "MariaDB"
             start eq_refl eq_refl).
    right. reflexivity.
  - apply (dispatch_on_lowercase_type refusing_host
             (manager_of [] [shop_db "PostgreSQL"]) (shop_db "PostgreSQL")
             "PostgreSQL" start eq_refl eq_refl).
    left. reflexivity.
  - destruct (dispatch_on_lowercase_type refusing_host
                (manager_of [] [shop_db "Oracle"]) (shop_db "Oracle") "Oracle"
                start eq_refl eq_refl) as (_ & _ & Hother).
    destruct Hother as (w' & Hrun & Hfs & Hprocs & _).
    + intros Hin. apply list_elem_of_In in Hin. cbn in Hin.
      destruct Hin as [H|[H|[H|[H|[]]]]]; discriminate H.
    + exists w'. split; [exact Hrun|]. split; [exact Hfs|exact Hprocs].
Defined.

(** The shop database without its [type] key. *)
Lemma missing_type_is_mysql_witness :
  backup_database refusing_host (manager_of [] [untyped_db]) untyped_db start
  = backup_mysql_database refusing_host (manager_of [] [untyped_db])
                          untyped_db start.
Proof.
  exact (missing_type_is_mysql refusing_host (manager_of [] [untyped_db])
           untyped_db start eq_refl eq_refl).
Defined.

(** On the refusing host both paths fail with the text the dump tool
    wrote, and the backup directory is empty afterwards; on the bare host,
    where the dump tools are missing, both paths leave a file of zero bytes
    under the name of the dump. *)
Lemma dump_failure_paths_witness :
  (∃ w', backup_mysql_database refusing_host (manager_of [] [shop_db "mysql"])
                               (shop_db "mysql") start
         = (Ret None, w')
         ∧ log w' = [(INFO, BackingUpMySQLDatabase (VStr "shopdb"));
                     (ERROR, MySQLBackupFailed
                               (Exception_ "mysqldump error: Access denied"))]
         ∧ entries w' "backups" = ∅)
  ∧ (∃ w', backup_postgresql_database refusing_host
             (manager_of [] [shop_db "postgres"]) (shop_db "postgres") start
           = (Ret None, w')
           ∧ log w' = [(INFO, BackingUpPostgreSQLDatabase (VStr "shopdb"));
                       (ERROR, PostgreSQLBackupFailed
                                 (Exception_ "pg_dump error: Access denied"))]
           ∧ entries w' "backups" = ∅)
  ∧ (∃ w', backup_mysql_database bare_host (manager_of [] [shop_db "mysql"])
                                 (shop_db "mysql") start
           = (Ret None, w')
           ∧ entries w' "backups" !! "shop_mysql_20231114_221320.sql.gz"
             = Some (File {| st_size := 0;
                             st_mtime := inject_Z 1700000001 |}))
  ∧ (∃ w', backup_postgresql_database bare_host
             (manager_of [] [shop_db "postgres"]) (shop_db "postgres") start
           = (Ret None, w')
           ∧ entries w' "backups" !! "shop_postgresql_20231114_221320.sql.gz"
             = Some (File {| st_size := 0;
                             st_mtime := inject_Z 1700000001 |})).
Proof.
  split; [|split; [|split]].
  - destruct (dump_failure_paths refusing_host
                (manager_of [] [shop_db "mysql"]) (shop_db "mysql")
                (VStr "shop") (VStr "localhost") (VStr "backup") "shopdb"
                start ∅ eq_refl eq_refl eq_refl eq_refl eq_refl)
      as [Hmysql _].
    destruct (Hmysql (VInt 3306) (VStr "secret") eq_refl eq_refl)
      as [Hfailed _].
    + intros f. rewrite lookup_empty. discriminate.
    + destruct (Hfailed eq_refl eq_refl)
        as (w' & e & Hrun & Hlog & He & _ & _ & Hent).
      * left. discriminate.
      * exists w'. split; [exact Hrun|]. split; [|exact Hent].
        rewrite Hlog, (He ltac:(discriminate)). reflexivity.
  - destruct (dump_failure_paths refusing_host
                (manager_of [] [shop_db "postgres"]) (shop_db "postgres")
                (VStr "shop") (VStr "localhost") (VStr "backup") "shopdb"
                start ∅ eq_refl eq_refl eq_refl eq_refl eq_refl)
      as [_ Hpg].
    destruct (Hpg "secret" eq_refl) as [Hfailed _].
    + intros f. rewrite lookup_empty. discriminate.
    + destruct (Hfailed eq_refl eq_refl)
        as (w' & e & Hrun & Hlog & He & _ & _ & Hent).
      * left. discriminate.
      * exists w'. split; [exact Hrun|]. split; [|exact Hent].
        rewrite Hlog, (He ltac:(discriminate)). reflexivity.
  - destruct (dump_failure_paths bare_host
                (manager_of [] [shop_db "mysql"]) (shop_db "mysql")
                (VStr "shop") (VStr "localhost") (VStr "backup") "shopdb"
                start ∅ eq_refl eq_refl eq_refl eq_refl eq_refl)
      as [Hmysql _].
    destruct (Hmysql (VInt 3306) (VStr "secret") eq_refl eq_refl)
      as [_ Hmissing].
    + intros f. rewrite lookup_empty. discriminate.
    + destruct (Hmissing eq_refl) as (w' & Hrun & _ & Hent).
      exists w'. split; [exact Hrun|exact Hent].
  - destruct (dump_failure_paths bare_host
                (manager_of [] [shop_db "postgres"]) (shop_db "postgres")
                (VStr "shop") (VStr "localhost") (VStr "backup") "shopdb"
                start ∅ eq_refl eq_refl eq_refl eq_refl eq_refl)
      as [_ Hpg].
    destruct (Hpg "secret" eq_refl) as [_ Hmissing].
    + intros f. rewrite lookup_empty. discriminate.
    + destruct (Hmissing eq_refl) as (w' & Hrun & _ & Hent).
      exists w'. split; [exact Hrun|exact Hent].
Defined.

(** With seven days of retention, the dump written months before the
    clock reading is removed. *)
Lemma retention_sweep_removes_exactly_the_expired_witness :
  ∃ w', cleanup_old_backups bare_host (manager_of [] []) aged = (Ret tt, w')
        ∧ entries w' "backups" !! "shop_mysql_20230101_000000.sql.gz" = None.
Proof.
  destruct (retention_sweep_removes_exactly_the_expired bare_host
              (manager_of [] []) aged "shop_mysql_20230101_000000.sql.gz"
              {| st_size := 4096; st_mtime := inject_Z 1672531200 |} eq_refl)
    as (w' & Hrun & Hiff & _).
  exists w'. split; [exact Hrun|]. apply Hiff. split.
  - apply list_elem_of_In. left. reflexivity.
  - reflexivity.
Defined.



(** * Counterexamples *)



(** A [type] that is a number, not a string: [lower] raises
    [AttributeError] before any dispatch, and nothing catches it, so the
    target is not counted as a failure: the loop of [run_backup] and
    [run_backup] itself end with the exception. *)
Lemma type_not_a_string_raises :
  backup_database refusing_host (manager_of [] [numbered_type_db])
                  numbered_type_db start
  = (Raise AttributeError, start)
  ∧ for_each (backup_database refusing_host (manager_of [] [numbered_type_db]))
             [numbered_type_db] (0, 0) start
    = (Raise AttributeError, start)
  ∧ (¬ ∃ w', for_each (backup_database refusing_host
                         (manager_of [] [numbered_type_db]))
                      [numbered_type_db] (0, 0) start
             = (Ret (0, 1), w'))
  ∧ fst (run_backup refusing_host (manager_of [] [numbered_type_db]) start)
    = Raise AttributeError.
Proof.
  assert (Hloop : for_each (backup_database refusing_host
                              (manager_of [] [numbered_type_db]))
                           [numbered_type_db] (0, 0) start
                  = (Raise AttributeError, start))
    by (vm_compute; exact eq_refl).
  split; [vm_compute; exact eq_refl|]. split; [exact Hloop|]. split.
  - intros [w' Hret]. rewrite Hloop in Hret. discriminate Hret.
  - vm_compute. exact eq_refl.
Qed.

(** ** At the edges of the properties above *)

(** Standard error that is not UTF-8: the exception that reaches the
    handler is [UnicodeDecodeError], the error line does not hold what the
    dump tool wrote, and the destination is removed all the same. *)
Example undecodable_stderr_is_not_reported :
  let out := backup_mysql_database garbling_host
               (manager_of [] [shop_db "mysql"]) (shop_db "mysql") start in
  out.1 = Ret None
  ∧ log out.2 = [(INFO, BackingUpMySQLDatabase (VStr "shopdb"));
                 (ERROR, MySQLBackupFailed UnicodeDecodeError)]
  ∧ entries out.2 "backups" = ∅.
Proof. cbv zeta; repeat apply conj; vm_compute; exact eq_refl. Qed.

(** A real run on a configuration file that holds a JSON array stops in
    [BackupManager.__init__] with [TypeError]. *)
Example run_on_an_array :
  main bare_host plain_run listed = (Raise TypeError, listed).
Proof. vm_compute. exact eq_refl. Qed.

(** [--init] on a configuration file that is not JSON ends with 1. *)
Example init_on_invalid_json :
  fst (main bare_host init_run garbled) = Raise (SystemExit 1).
Proof. vm_compute. exact eq_refl. Qed.

(** [gzip] missing: the dump process was started, the failure is reported
    as a missing [mysqldump], and the empty destination stays. *)
Example missing_gzip_reported_as_missing_dump_tool :
  let out := backup_mysql_database gzipless_host
               (manager_of [] [shop_db "mysql"]) (shop_db "mysql") start in
  out.1 = Ret None
  ∧ log out.2 = [(INFO, BackingUpMySQLDatabase (VStr "shopdb"));
                 (ERROR, MysqldumpNotFound)]
  ∧ procs out.2 = [mysqldump_process (VStr "localhost") (VInt 3306)
                     (VStr "backup") (VStr "secret") "shopdb"]
  ∧ entries out.2 "backups"
    = {[ "shop_mysql_20231114_221320.sql.gz"
         := File {| st_size := 0; st_mtime := inject_Z 1700000001 |} ]}.
Proof. cbv zeta; repeat apply conj; vm_compute; exact eq_refl. Qed.

(** A run with one website whose path exists and the tools at hand: one
    archive, one success, no failure. *)
Example one_website_archived :
  let w0 := set_fs (<["/var/www/blog" := ∅]> (fs start)) start in
  let out := run_backup refusing_host (manager_of [blog_site] []) w0 in
  out.1 = Ret (1, 0)
  ∧ entries out.2 "backups"
    = {[ "blog_website_20231114_221320.tar.gz"
         := File {| st_size := 1024; st_mtime := inject_Z 1700000001 |} ]}.
Proof. cbv zeta; repeat apply conj; vm_compute; exact eq_refl. Qed.

(** * Further properties *)

(** ** The configuration store *)

(** X2: a configuration that loaded is stable: loading the same path
    again returns the same document and leaves the world as it is, also when
    the first load had to write the default document. *)
Theorem load_config_twice config_file c w w1 :
  load_config config_file w = (Ret c, w1) →
  load_config config_file w1 = (Ret c, w1).
Proof.
  destruct (docs w !! config_file) as [[v| |]|] eqn:Hdoc.
  - rewrite (load_config_parses _ v w Hdoc). intros [= <- <-].
    by apply load_config_parses.
  - rewrite (load_config_not_json _ w Hdoc). discriminate.
  - rewrite (load_config_not_text _ w Hdoc). discriminate.
  - destruct (fs w !! config_file) as [es|] eqn:Hfs.
    + unfold load_config at 1. unfold bind at 1. unfold os_path_exists at 1.
      rewrite Hdoc, Hfs.
      rewrite (bool_decide_eq_true_2 (is_Some (Some es))) by (by eexists).
      rewrite orb_true_r. cbn [negb].
      unfold try_except, json_load. rewrite Hdoc, Hfs.
      by rewrite bool_decide_eq_true_2 by (by eexists).
    + assert (Habsent : absent config_file w) by done.
      destruct (in_directory config_file w) eqn:Hdir.
      * destruct (load_config_absent _ w Habsent Hdir)
          as (w' & Hload & Hdocs & _).
        rewrite Hload. intros [= <- <-].
        apply load_config_parses. by rewrite Hdocs, lookup_insert_eq.
      * rewrite (load_config_nowhere _ w Habsent Hdir). discriminate.
Qed.

Lemma load_config_twice_witness :
  ∃ w1, load_config "backup_config.json" start
        = (Ret (Object default_config), w1)
        ∧ load_config "backup_config.json" w1
          = (Ret (Object default_config), w1).
Proof.
  eexists. split; [reflexivity|].
  apply (load_config_twice "backup_config.json" (Object default_config) start).
  reflexivity.
Defined.

(** ** The command line *)

(** X3: [--version] wins over everything: [main] prints the banner and
    ends with exit code 0 without reading the configuration, whatever the
    other arguments and whatever the path holds. *)
Theorem main_version E a w :
  args_version a = true →
  ∃ w', main E a w = (Raise (SystemExit 0), w')
        ∧ exit_code (fst (main E a w)) = 0
        ∧ stdout w' = stdout w ++ [VersionBanner]
        ∧ fs w' = fs w ∧ docs w' = docs w ∧ log w' = log w
        ∧ procs w' = procs w ∧ reads w' = reads w.
Proof.
  intros Hver.
  assert (Hmain : main E a w
            = (Raise (SystemExit 0),
               {| fs := fs w; docs := docs w; reads := reads w; log := log w;
                  procs := procs w; stdout := stdout w ++ [VersionBanner] |})).
  { unfold main. by rewrite Hver. }
  eexists. split; [exact Hmain|]. by rewrite Hmain.
Qed.

Lemma main_version_witness :
  exit_code (fst (main bare_host
                    {| args_config := "backup_config.json"; args_init := true;
                       args_version := true |} garbled)) = 0.
Proof.
  destruct (main_version bare_host
              {| args_config := "backup_config.json"; args_init := true;
                 args_version := true |} garbled eq_refl)
    as (w' & _ & Hexit & _).
  exact Hexit.
Defined.

(** X4: a document without [backup_dir]: a run that is not [--init] stops
    in [BackupManager.__init__] with [KeyError], so the exit code is 1, and
    nothing was created, started or logged. *)
Theorem main_without_backup_dir E a c w :
  args_version a = false →
  args_init a = false →
  docs w !! args_config a = Some (Json c) →
  backup_dir c = None →
  main E a w = (Raise (KeyError "backup_dir"), w)
  ∧ exit_code (fst (main E a w)) = 1.
Proof.
  intros Hver Hinit Hdoc Hdir.
  assert (Hmain : main E a w = (Raise (KeyError "backup_dir"), w)).
  { unfold main. rewrite Hver. unfold bind at 1.
    rewrite (load_config_json _ c w Hdoc), Hinit.
    unfold bind at 1. unfold new_BackupManager, BackupManager_init.
    by rewrite Hdir. }
  by rewrite Hmain.
Qed.

Lemma main_without_backup_dir_witness :
  exit_code (fst (main bare_host plain_run dirless)) = 1.
Proof.
  assert (Hdoc : docs dirless !! args_config plain_run
                 = Some (Json {| backup_dir := None; retention_days := None;
                                 compression := None; websites := Some [];
                                 databases := None; notifications := None |}))
    by (vm_compute; reflexivity).
  exact (proj2 (main_without_backup_dir bare_host plain_run _ dirless
                  eq_refl eq_refl Hdoc eq_refl)).
Defined.

(** ** Counts *)

Lemma for_each_counts (backup : dict → Py (option string)) targets :
  ∀ counts w counts' w',
    for_each backup targets counts w = (Ret counts', w') →
    fst counts ≤ fst counts' ∧ snd counts ≤ snd counts'
    ∧ fst counts' + snd counts'
      = fst counts + snd counts + Z.of_nat (length targets).
Proof.
  induction targets as [|target rest IH]; intros counts w counts' w'.
  - cbn [for_each length]. unfold ret. intros [= <- <-]. lia.
  - cbn [for_each length]. unfold bind at 1.
    destruct (backup target w) as [[[p|]|e] w1]; [| |discriminate];
      intros Hrest; apply IH in Hrest; cbn [fst snd] in Hrest; lia.
Qed.

(** X5: when [run_backup] returns, every listed target was counted once:
    the two counts are not negative and add up to the number of websites
    plus the number of databases, enabled or not. *)
Theorem run_backup_counts_every_target E self w success_count fail_count w' :
  run_backup E self w = (Ret (success_count, fail_count), w') →
  0 ≤ success_count ∧ 0 ≤ fail_count
  ∧ success_count + fail_count
    = Z.of_nat (length (default [] (websites (self_config self))))
      + Z.of_nat (length (default [] (databases (self_config self)))).
Proof.
  unfold run_backup.
  do 3 (unfold bind at 1; unfold logging at 1).
  unfold bind at 1.
  destruct (for_each (backup_website E self) _ _ _) as [[c1|e] w1] eqn:H1;
    [|discriminate].
  unfold bind at 1.
  destruct (for_each (backup_database E self) _ _ _) as [[c2|e] w2] eqn:H2;
    [|discriminate].
  unfold bind at 1.
  destruct (cleanup_old_backups E self w2) as [[[]|e] w3]; [|discriminate].
  do 3 (unfold bind at 1; unfold logging at 1). unfold ret.
  intros [= Hc _].
  apply for_each_counts in H1, H2. cbn [fst snd] in H1.
  rewrite Hc in H2. cbn [fst snd] in H2. lia.
Qed.

Lemma run_backup_counts_every_target_witness :
  0 ≤ 1 ∧ 0 ≤ 2
  ∧ 1 + 2
    = Z.of_nat (length [blog_site])
      + Z.of_nat (length [shop_db "mysql"; shop_db "oracle"]).
Proof.
  apply (run_backup_counts_every_target refusing_host
           (manager_of [blog_site] [shop_db "mysql"; shop_db "oracle"])
           (set_fs (<["/var/www/blog" := ∅]> (fs start)) start) 1 2
           (snd (run_backup refusing_host
                   (manager_of [blog_site] [shop_db "mysql"; shop_db "oracle"])
                   (set_fs (<["/var/www/blog" := ∅]> (fs start)) start)))).
  vm_compute. reflexivity.
Defined.

(** ** Names of the backups *)

Lemma recognized_app stem rest :
  from_last_dot rest = Some ".gz" → recognized (stem +:+ "_" +:+ rest) = true.
Proof.
  intros Hrest.
  assert (Hs : suffix (stem +:+ "_" +:+ rest) = ".gz").
  { destruct stem as [|c stem].
    - change ("" +:+ "_" +:+ rest) with (String "_" rest).
      cbn [suffix]. by rewrite Hrest.
    - change (String c stem +:+ "_" +:+ rest)
        with (String c (stem +:+ "_" +:+ rest)).
      cbn [suffix].
      rewrite (from_last_dot_app stem ("_" +:+ rest) ".gz"); [done|].
      by apply (from_last_dot_app "_" rest). }
  unfold recognized. rewrite Hs. apply bool_decide_eq_true_2.
  apply list_elem_of_here.
Qed.

(** X6: every name the three backup functions give to a file has the
    suffix [.gz], whatever the target's name and the timestamp, so the
    retention sweep recognizes every backup the tool writes. *)
Theorem backup_names_are_recognized (name : scalar) (timestamp : string) :
  recognized (website_backup_name name timestamp) = true
  ∧ recognized (mysql_backup_name name timestamp) = true
  ∧ recognized (postgresql_backup_name name timestamp) = true.
Proof.
  unfold website_backup_name, mysql_backup_name, postgresql_backup_name.
  repeat split.
  - apply (recognized_app (py_str name) ("website_" +:+ timestamp +:+ ".tar.gz")).
    apply (from_last_dot_app "website_"). by apply (from_last_dot_app timestamp).
  - apply (recognized_app (py_str name) ("mysql_" +:+ timestamp +:+ ".sql.gz")).
    apply (from_last_dot_app "mysql_"). by apply (from_last_dot_app timestamp).
  - apply (recognized_app (py_str name) ("postgresql_" +:+ timestamp +:+ ".sql.gz")).
    apply (from_last_dot_app "postgresql_"). by apply (from_last_dot_app timestamp).
Qed.

(** ** Website archives *)

Section Website.

Context (E : env) (self : BackupManager) (website : dict).
Context (site_path : string) (name : scalar) (w : world).
Context (es : gmap string node).
Context (Hen : truthy (dict_get website "enabled" (VBool false)) = true)
        (Hpath : website !! "path" = Some (VStr site_path))
        (Hexists : path_exists site_path w = (Ret true, w))
        (Hname : website !! "name" = Some name).

Let dir := self_backup_dir self.

Context (Hdir : fs w !! dir = Some es).

Let backup_name := website_backup_name name (stamp (clock E (reads w))).

Context (Hnot : ∀ f, es !! backup_name ≠ Some (Dir f)).

(** The archive was opened: what is left is [tar.add] and its outcome. *)
Lemma backup_website_opened :
  backup_website E self website w
  = try_except
      (tar_add_close E dir backup_name site_path name ;;;
       st <- stat dir backup_name ;;
       logging INFO (WebsiteBackupCompleted backup_name (st_size st)) ;;;
       ret (Some (joinpath dir backup_name)))
      (λ e, if is_Exception e then
              logging ERROR (WebsiteBackupFailed e) ;;;
              ret None
            else raise e)
      (put_file E dir backup_name 0
         (logged INFO (BackingUpWebsite name) (ticked w))).
Proof.
  unfold backup_website. rewrite Hen. cbn [negb].
  run_subscript Hpath. unfold bind at 1. cbn [as_str ret].
  unfold bind at 1. rewrite Hexists. cbn [negb].
  unfold bind at 1. unfold get_timestamp. unfold bind at 1. unfold now at 1.
  cbn [ret]. run_subscript Hname.
  unfold bind at 1. unfold logging at 1.
  fold dir. fold (website_backup_name name (stamp (clock E (reads w)))).
  fold backup_name.
  unfold try_except. unfold bind at 1.
  by rewrite (open_wb_creates E dir backup_name
                (logged INFO (BackingUpWebsite name) (ticked w)) es Hdir Hnot).
Qed.

Lemma backup_website_done arcname size :
  arcname_of name site_path = Some arcname →
  tar_add E (S (reads w)) site_path arcname = TarDone size →
  ∃ w', backup_website E self website w
        = (Ret (Some (joinpath dir backup_name)), w')
        ∧ entries w' dir
          = <[backup_name := File {| st_size := size;
                                     st_mtime := epoch (clock E (S (reads w))) |}]> es
        ∧ (∀ d, d ≠ dir → fs w' !! d = fs w !! d)
        ∧ procs w' = procs w
        ∧ log w' = log w ++ [(INFO, BackingUpWebsite name);
                             (INFO, WebsiteBackupCompleted backup_name size)]
        ∧ reads w' = S (reads w)
        ∧ is_Some (fs w' !! dir).
Proof.
  intros Harc Htar. rewrite backup_website_opened.
  set (w0 := put_file E dir backup_name 0 _).
  unfold try_except. unfold bind at 1. unfold tar_add_close. unfold bind at 1.
  assert (Hret : match name with
                 | VStr s => ret s
                 | VNone => ret site_path
                 | _ => raise TypeError
                 end w0 = (Ret arcname, w0)).
  { destruct name; cbn in Harc; by simplify_eq. }
  rewrite Hret. change (reads w0) with (S (reads w)). rewrite Htar.
  set (w1 := put_file E dir backup_name size w0).
  assert (Hent : entries w1 dir
            = <[backup_name := File {| st_size := size;
                                       st_mtime := epoch (clock E (S (reads w))) |}]> es).
  { unfold w1. rewrite entries_put_file. unfold w0 at 2.
    rewrite entries_put_file, insert_insert_eq. unfold entries.
    cbn [logged ticked fs]. by rewrite Hdir. }
  unfold bind at 1. unfold stat at 1. rewrite Hent, lookup_insert_eq.
  unfold bind at 1. unfold logging at 1. cbn [ret st_size].
  eexists. split; [reflexivity|]. split; [exact Hent|].
  split; [|split; [|split; [|split]]].
  - intros d Hd. cbn [logged fs]. unfold w1. rewrite fs_put_file_ne by done.
    unfold w0. by rewrite fs_put_file_ne.
  - reflexivity.
  - cbn. by rewrite <- app_assoc.
  - reflexivity.
  - cbn [logged fs]. unfold w1, put_file, set_fs. cbn [fs].
    rewrite lookup_insert_eq. by eexists.
Qed.

Lemma backup_website_failed arcname partial e :
  arcname_of name site_path = Some arcname →
  tar_add E (S (reads w)) site_path arcname = TarFailed partial e →
  is_Exception e = true →
  ∃ w', backup_website E self website w = (Ret None, w')
        ∧ entries w' dir
          = <[backup_name := File {| st_size := partial;
                                     st_mtime := epoch (clock E (S (reads w))) |}]> es
        ∧ (∀ d, d ≠ dir → fs w' !! d = fs w !! d)
        ∧ procs w' = procs w
        ∧ log w' = log w ++ [(INFO, BackingUpWebsite name);
                             (ERROR, WebsiteBackupFailed e)].
Proof.
  intros Harc Htar Hexc. rewrite backup_website_opened.
  set (w0 := put_file E dir backup_name 0 _).
  unfold try_except. unfold bind at 1. unfold tar_add_close. unfold bind at 1.
  assert (Hret : match name with
                 | VStr s => ret s
                 | VNone => ret site_path
                 | _ => raise TypeError
                 end w0 = (Ret arcname, w0)).
  { destruct name; cbn in Harc; by simplify_eq. }
  rewrite Hret. change (reads w0) with (S (reads w)). rewrite Htar, Hexc.
  set (w1 := put_file E dir backup_name partial w0).
  assert (Hent : entries w1 dir
            = <[backup_name := File {| st_size := partial;
                                       st_mtime := epoch (clock E (S (reads w))) |}]> es).
  { unfold w1. rewrite entries_put_file. unfold w0 at 2.
    rewrite entries_put_file, insert_insert_eq. unfold entries.
    cbn [logged ticked fs]. by rewrite Hdir. }
  unfold bind at 1. unfold logging at 1. cbn [ret].
  eexists. split; [reflexivity|]. split; [exact Hent|]. split; [|split].
  - intros d Hd. cbn [logged fs]. unfold w1. rewrite fs_put_file_ne by done.
    unfold w0. by rewrite fs_put_file_ne.
  - reflexivity.
  - cbn. by rewrite <- app_assoc.
Qed.

Lemma backup_website_refused_name :
  arcname_of name site_path = None →
  ∃ w', backup_website E self website w = (Ret None, w')
        ∧ entries w' dir
          = <[backup_name := File {| st_size := 0;
                                     st_mtime := epoch (clock E (S (reads w))) |}]> es
        ∧ log w' = log w ++ [(INFO, BackingUpWebsite name);
                             (ERROR, WebsiteBackupFailed TypeError)].
Proof.
  intros Harc. rewrite backup_website_opened.
  set (w0 := put_file E dir backup_name 0 _).
  unfold try_except. unfold bind at 1. unfold tar_add_close. unfold bind at 1.
  assert (Hret : match name with
                 | VStr s => ret s
                 | VNone => ret site_path
                 | _ => raise TypeError
                 end w0 = (Raise TypeError, w0)).
  { destruct name; cbn in Harc; by simplify_eq. }
  rewrite Hret. cbn [is_Exception].
  unfold bind at 1. unfold logging at 1. cbn [ret].
  eexists. split; [reflexivity|]. split; [|].
  - cbn [logged]. rewrite (entries_logged ERROR (WebsiteBackupFailed TypeError)).
    unfold w0. rewrite entries_put_file. unfold entries. cbn [logged ticked fs reads].
    by rewrite Hdir.
  - cbn. by rewrite <- app_assoc.
Qed.

End Website.

(** ** Database dumps that succeed, and targets with a field missing *)

(** The handler of [except Exception] on any world where the destination
    is not a directory: the destination is not there afterwards. *)
Lemma discard_if_present dir name w :
  (∀ f, entries w dir !! name ≠ Some (Dir f)) →
  ∃ w',
    (present <- exists_in dir name ;;
     (if present then unlink dir name else ret tt) ;;;
     ret (@None string)) w
    = (Ret None, w')
    ∧ entries w' dir = delete name (entries w dir)
    ∧ (∀ d, d ≠ dir → fs w' !! d = fs w !! d)
    ∧ procs w' = procs w ∧ log w' = log w ∧ reads w' = reads w
    ∧ docs w' = docs w ∧ stdout w' = stdout w.
Proof.
  intros Hnot. unfold bind at 1. unfold exists_in at 1.
  destruct (entries w dir !! name) as [[f|f]|] eqn:Hn.
  - by destruct (Hnot f).
  - rewrite bool_decide_eq_true_2 by (by eexists).
    unfold bind at 1. unfold unlink at 1. rewrite Hn.
    eexists. split; [reflexivity|]. split; [|split; [|done]].
    + by rewrite entries_set_fs.
    + intros d Hd. by apply fs_set_fs_ne.
  - rewrite bool_decide_eq_false_2 by (by intros [? ?]).
    unfold bind at 1. cbn [ret].
    exists w. split; [reflexivity|]. split; [|done].
    by rewrite delete_id.
Qed.

Section MySQLMore.

Context (E : env) (self : BackupManager) (db_config : dict).
Context (name database : scalar) (w : world).
Context (Hname : db_config !! "name" = Some name)
        (Hdatabase : db_config !! "database" = Some database).

Let dir := self_backup_dir self.
Let backup_name := mysql_backup_name name (stamp (clock E (reads w))).
Let w0 := logged INFO (BackingUpMySQLDatabase database) (ticked w).

Lemma backup_mysql_database_missing_field key :
  first_missing db_config ["host"; "port"; "user"; "password"] = Some key →
  (∀ f, entries w dir !! backup_name ≠ Some (Dir f)) →
  ∃ w', backup_mysql_database E self db_config w = (Ret None, w')
        ∧ entries w' dir = delete backup_name (entries w dir)
        ∧ (∀ d, d ≠ dir → fs w' !! d = fs w !! d)
        ∧ procs w' = procs w
        ∧ log w' = log w ++ [(INFO, BackingUpMySQLDatabase database);
                             (ERROR, MySQLBackupFailed (KeyError key))].
Proof.
  intros Hmiss Hnot.
  destruct (discard_if_present dir backup_name
              (logged ERROR (MySQLBackupFailed (KeyError key)) w0) Hnot)
    as (w' & Hrm & Hent & Hfs & Hprocs & Hlog & _).
  assert (Hrun : backup_mysql_database E self db_config w = (Ret None, w')).
  { unfold backup_mysql_database, get_timestamp.
    unfold bind at 1. unfold bind at 1. unfold now at 1. cbn [ret].
    run_subscript Hname. run_subscript Hdatabase.
    unfold bind at 1. unfold logging at 1. unfold try_except.
    fold dir. fold (mysql_backup_name name (stamp (clock E (reads w)))).
    fold backup_name. fold w0.
    cbn [first_missing] in Hmiss.
    unfold bind at 1. unfold subscript at 1.
    destruct (db_config !! "host") as [host|];
      [cbn [ret]|injection Hmiss as <-; unfold raise, bind at 1, logging at 1;
                 exact Hrm].
    unfold bind at 1. unfold subscript at 1.
    destruct (db_config !! "port") as [port|];
      [cbn [ret]|injection Hmiss as <-; unfold raise, bind at 1, logging at 1;
                 exact Hrm].
    unfold bind at 1. unfold subscript at 1.
    destruct (db_config !! "user") as [user|];
      [cbn [ret]|injection Hmiss as <-; unfold raise, bind at 1, logging at 1;
                 exact Hrm].
    unfold bind at 1. unfold subscript at 1.
    destruct (db_config !! "password") as [password|];
      [discriminate|injection Hmiss as <-; unfold raise, bind at 1, logging at 1;
                    exact Hrm]. }
  exists w'. split; [exact Hrun|]. split; [exact Hent|]. split; [exact Hfs|].
  split; [exact Hprocs|]. rewrite Hlog. cbn. by rewrite <- app_assoc.
Qed.


Lemma backup_mysql_database_done host port user password database_name es :
  db_config !! "host" = Some host →
  db_config !! "port" = Some port →
  db_config !! "user" = Some user →
  db_config !! "password" = Some password →
  database = VStr database_name →
  fs w !! dir = Some es →
  (∀ f, es !! backup_name ≠ Some (Dir f)) →
  on_path E "mysqldump" = true →
  on_path E "gzip" = true →
  let dump := mysqldump_process host port user password database_name in
  let r := pipe E (S (reads w)) dump in
  dump_returncode r = 0 →
  gzip_returncode r = 0 →
  ∃ w', backup_mysql_database E self db_config w
        = (Ret (Some (joinpath dir backup_name)), w')
        ∧ entries w' dir
          = <[backup_name := File {| st_size := written r;
                                     st_mtime := epoch (clock E (S (reads w))) |}]> es
        ∧ (∀ d, d ≠ dir → fs w' !! d = fs w !! d)
        ∧ procs w' = procs w ++ [dump; gzip_process]
        ∧ log w' = log w ++ [(INFO, BackingUpMySQLDatabase database);
                             (INFO, MySQLBackupCompleted backup_name (written r))].
Proof.
  intros Hhost Hport Huser Hpassword -> Hdir Hnot Htool Hgzip dump r Hd Hg.
  destruct (dump_through_gzip_spec E dir backup_name "mysqldump"
              (argv dump) [] w0 es Hdir Hnot Htool Hgzip)
    as (w1 & Hrun & Hent & Hfs & Hprocs & Hlog & _).
  change (pipe E (reads w0) {| argv := argv dump; environ := [] |})
    with r in Hrun, Hent.
  rewrite Hd, Hg in Hrun. cbn [negb Z.eqb] in Hrun.
  unfold backup_mysql_database, get_timestamp.
  unfold bind at 1. unfold bind at 1. unfold now at 1. cbn [ret].
  run_subscript Hname. run_subscript Hdatabase.
  unfold bind at 1. unfold logging at 1. unfold try_except.
  run_subscript Hhost. run_subscript Hport. run_subscript Huser.
  run_subscript Hpassword. run_subscript Hdatabase.
  fold dir. fold (mysql_backup_name name (stamp (clock E (reads w)))).
  fold backup_name. fold w0.
  change (mysqldump_cmd host port user password (VStr database_name))
    with (VStr <$> argv dump).
  change (@nil (string * scalar))
    with (prod_map id VStr <$> @nil (string * string)).
  unfold bind at 1. rewrite Hrun.
  unfold bind at 1. unfold stat at 1. rewrite Hent, lookup_insert_eq.
  unfold bind at 1. unfold logging at 1. cbn [ret st_size].
  eexists. split; [reflexivity|]. split; [exact Hent|]. split; [exact Hfs|].
  split; [exact Hprocs|]. cbn [logged log]. rewrite Hlog. cbn.
  by rewrite <- app_assoc.
Qed.

Lemma backup_mysql_database_bad_database host port user password es :
  db_config !! "host" = Some host →
  db_config !! "port" = Some port →
  db_config !! "user" = Some user →
  db_config !! "password" = Some password →
  (∀ s, database ≠ VStr s) →
  fs w !! dir = Some es →
  (∀ f, es !! backup_name ≠ Some (Dir f)) →
  ∃ w', backup_mysql_database E self db_config w = (Ret None, w')
        ∧ entries w' dir = delete backup_name es
        ∧ (∀ d, d ≠ dir → fs w' !! d = fs w !! d)
        ∧ procs w' = procs w
        ∧ log w' = log w ++ [(INFO, BackingUpMySQLDatabase database);
                             (ERROR, MySQLBackupFailed TypeError)].
Proof.
  intros Hhost Hport Huser Hpassword Hbad Hdir Hnot.
  set (w1 := put_file E dir backup_name 0 w0).
  assert (Hent1 : entries (logged ERROR (MySQLBackupFailed TypeError) w1) dir
                  = <[backup_name := File {| st_size := 0;
                        st_mtime := epoch (clock E (S (reads w))) |}]> es).
  { rewrite entries_logged. unfold w1. rewrite entries_put_file.
    unfold entries, w0. cbn [logged ticked fs reads]. by rewrite Hdir. }
  destruct (remove_partial_output dir backup_name _ es _ Hent1)
    as (w' & Hrm & Hent & Hfs & Hprocs & Hlog & _).
  assert (Hargs : ∀ w2, all_str (mysqldump_cmd host port user password database) w2
                        = (Raise TypeError, w2)).
  { intros w2. unfold mysqldump_cmd. cbn [all_str as_str]. unfold bind, ret.
    destruct database as [| | |s]; try reflexivity. by destruct (Hbad s). }
  assert (Hrun : backup_mysql_database E self db_config w = (Ret None, w')).
  { unfold backup_mysql_database, get_timestamp.
    unfold bind at 1. unfold bind at 1. unfold now at 1. cbn [ret].
    run_subscript Hname. run_subscript Hdatabase.
    unfold bind at 1. unfold logging at 1. unfold try_except.
    run_subscript Hhost. run_subscript Hport. run_subscript Huser.
    run_subscript Hpassword. run_subscript Hdatabase.
    fold dir. fold (mysql_backup_name name (stamp (clock E (reads w)))).
    fold backup_name. fold w0.
    unfold bind at 1. unfold dump_through_gzip. unfold bind at 1.
    rewrite (open_wb_creates E dir backup_name w0 es Hdir Hnot). fold w1.
    unfold bind at 1. unfold Popen. unfold bind at 1. rewrite Hargs.
    unfold bind at 1. unfold logging at 1. exact Hrm. }
  exists w'. split; [exact Hrun|]. split; [exact Hent|]. split; [|split].
  - intros d Hd. rewrite Hfs by done. cbn [logged fs]. unfold w1.
    by rewrite fs_put_file_ne.
  - by rewrite Hprocs.
  - rewrite Hlog. cbn. by rewrite <- app_assoc.
Qed.

End MySQLMore.

Section PostgreSQLMore.

Context (E : env) (self : BackupManager) (db_config : dict).
Context (name database : scalar) (w : world).
Context (Hname : db_config !! "name" = Some name)
        (Hdatabase : db_config !! "database" = Some database).

Let dir := self_backup_dir self.
Let backup_name := postgresql_backup_name name (stamp (clock E (reads w))).
Let w0 := logged INFO (BackingUpPostgreSQLDatabase database) (ticked w).

Lemma backup_postgresql_database_missing_field key :
  first_missing db_config ["password"; "host"; "user"] = Some key →
  (∀ f, entries w dir !! backup_name ≠ Some (Dir f)) →
  ∃ w', backup_postgresql_database E self db_config w = (Ret None, w')
        ∧ entries w' dir = delete backup_name (entries w dir)
        ∧ (∀ d, d ≠ dir → fs w' !! d = fs w !! d)
        ∧ procs w' = procs w
        ∧ log w' = log w ++ [(INFO, BackingUpPostgreSQLDatabase database);
                             (ERROR, PostgreSQLBackupFailed (KeyError key))].
Proof.
  intros Hmiss Hnot.
  destruct (discard_if_present dir backup_name
              (logged ERROR (PostgreSQLBackupFailed (KeyError key)) w0) Hnot)
    as (w' & Hrm & Hent & Hfs & Hprocs & Hlog & _).
  assert (Hrun : backup_postgresql_database E self db_config w = (Ret None, w')).
  { unfold backup_postgresql_database, get_timestamp.
    unfold bind at 1. unfold bind at 1. unfold now at 1. cbn [ret].
    run_subscript Hname. run_subscript Hdatabase.
    unfold bind at 1. unfold logging at 1. unfold try_except.
    fold dir. fold (postgresql_backup_name name (stamp (clock E (reads w)))).
    fold backup_name. fold w0.
    cbn [first_missing] in Hmiss.
    unfold bind at 1. unfold subscript at 1.
    destruct (db_config !! "password") as [password|];
      [cbn [ret]|injection Hmiss as <-; unfold raise, bind at 1, logging at 1;
                 exact Hrm].
    unfold bind at 1. unfold subscript at 1.
    destruct (db_config !! "host") as [host|];
      [cbn [ret]|injection Hmiss as <-; unfold raise, bind at 1, logging at 1;
                 exact Hrm].
    unfold bind at 1. unfold subscript at 1.
    destruct (db_config !! "user") as [user|];
      [discriminate|injection Hmiss as <-; unfold raise, bind at 1, logging at 1;
                    exact Hrm]. }
  exists w'. split; [exact Hrun|]. split; [exact Hent|]. split; [exact Hfs|].
  split; [exact Hprocs|]. rewrite Hlog. cbn. by rewrite <- app_assoc.
Qed.

Lemma backup_postgresql_database_done host user password database_name es :
  db_config !! "host" = Some host →
  db_config !! "user" = Some user →
  db_config !! "password" = Some (VStr password) →
  database = VStr database_name →
  fs w !! dir = Some es →
  (∀ f, es !! backup_name ≠ Some (Dir f)) →
  on_path E "pg_dump" = true →
  on_path E "gzip" = true →
  let dump := pg_dump_process host (dict_get db_config "port" (VInt 5432))
                              user password database_name in
  let r := pipe E (S (reads w)) dump in
  dump_returncode r = 0 →
  gzip_returncode r = 0 →
  ∃ w', backup_postgresql_database E self db_config w
        = (Ret (Some (joinpath dir backup_name)), w')
        ∧ entries w' dir
          = <[backup_name := File {| st_size := written r;
                                     st_mtime := epoch (clock E (S (reads w))) |}]> es
        ∧ (∀ d, d ≠ dir → fs w' !! d = fs w !! d)
        ∧ procs w' = procs w ++ [dump; gzip_process]
        ∧ log w' = log w ++ [(INFO, BackingUpPostgreSQLDatabase database);
                             (INFO, PostgreSQLBackupCompleted backup_name (written r))].
Proof.
  intros Hhost Huser Hpassword -> Hdir Hnot Htool Hgzip dump r Hd Hg.
  destruct (dump_through_gzip_spec E dir backup_name "pg_dump"
              (argv dump) (environ dump) w0 es Hdir Hnot Htool Hgzip)
    as (w1 & Hrun & Hent & Hfs & Hprocs & Hlog & _).
  change (pipe E (reads w0) {| argv := argv dump; environ := environ dump |})
    with r in Hrun, Hent.
  rewrite Hd, Hg in Hrun. cbn [negb Z.eqb] in Hrun.
  unfold backup_postgresql_database, get_timestamp.
  unfold bind at 1. unfold bind at 1. unfold now at 1. cbn [ret].
  run_subscript Hname. run_subscript Hdatabase.
  unfold bind at 1. unfold logging at 1. unfold try_except.
  run_subscript Hpassword. run_subscript Hhost. run_subscript Huser.
  run_subscript Hdatabase.
  fold dir. fold (postgresql_backup_name name (stamp (clock E (reads w)))).
  fold backup_name. fold w0.
  change (pg_dump_cmd host (dict_get db_config "port" (VInt 5432)) user
            (VStr database_name))
    with (VStr <$> argv dump).
  change [("PGPASSWORD", VStr password)]
    with (prod_map id VStr <$> environ dump).
  unfold bind at 1. rewrite Hrun.
  unfold bind at 1. unfold stat at 1. rewrite Hent, lookup_insert_eq.
  unfold bind at 1. unfold logging at 1. cbn [ret st_size].
  eexists. split; [reflexivity|]. split; [exact Hent|]. split; [exact Hfs|].
  split; [exact Hprocs|]. cbn [logged log]. rewrite Hlog. cbn.
  by rewrite <- app_assoc.
Qed.

End PostgreSQLMore.

(** ** Backups that are written, and backups that fail *)

(** X7: an enabled website whose path exists, archived without error:
    [backup_website] returns the path of a new file of the backup directory,
    named after the target and the clock, whose size is that of the archive;
    nothing else changes in the filesystem, no process is started, and the
    loop of [run_backup] adds one to the success count. *)
Theorem website_archive_is_written E self website site_path name arcname size w es :
  let dir := self_backup_dir self in
  let backup_name := website_backup_name name (stamp (clock E (reads w))) in
  truthy (dict_get website "enabled" (VBool false)) = true →
  website !! "path" = Some (VStr site_path) →
  path_exists site_path w = (Ret true, w) →
  website !! "name" = Some name →
  arcname_of name site_path = Some arcname →
  fs w !! dir = Some es →
  (∀ f, es !! backup_name ≠ Some (Dir f)) →
  tar_add E (S (reads w)) site_path arcname = TarDone size →
  ∃ w', backup_website E self website w
        = (Ret (Some (joinpath dir backup_name)), w')
        ∧ entries w' dir
          = <[backup_name := File {| st_size := size;
                                     st_mtime := epoch (clock E (S (reads w))) |}]> es
        ∧ (∀ d, d ≠ dir → fs w' !! d = fs w !! d)
        ∧ procs w' = procs w
        ∧ log w' = log w ++ [(INFO, BackingUpWebsite name);
                             (INFO, WebsiteBackupCompleted backup_name size)]
        ∧ ∀ rest counts,
            for_each (backup_website E self) (website :: rest) counts w
            = for_each (backup_website E self) rest
                       (fst counts + 1, snd counts) w'.
Proof.
  intros dir backup_name Hen Hpath Hexists Hname Harc Hdir Hnot Htar.
  destruct (backup_website_done E self website site_path name w es Hen Hpath
              Hexists Hname Hdir Hnot arcname size Harc Htar)
    as (w' & Hrun & Hent & Hfs & Hprocs & Hlog & _).
  exists w'. repeat (split; [assumption|]).
  intros rest counts. by apply (for_each_Some _ _ _ _ _ _ _ Hrun).
Qed.

Lemma website_archive_is_written_witness :
  ∃ w', backup_website working_host (manager_of [blog_site] []) blog_site served
        = (Ret (Some "backups/blog_website_20231114_221320.tar.gz"), w')
        ∧ entries w' "backups"
          = {[ "blog_website_20231114_221320.tar.gz"
               := File {| st_size := 1024; st_mtime := inject_Z 1700000001 |} ]}.
Proof.
  destruct (website_archive_is_written working_host (manager_of [blog_site] [])
              blog_site "/var/www/blog" (VStr "blog") "blog" 1024 served ∅
              eq_refl eq_refl eq_refl eq_refl eq_refl eq_refl)
    as (w' & Hrun & Hent & _).
  - intros f. rewrite lookup_empty. discriminate.
  - reflexivity.
  - exists w'. split; [exact Hrun|]. refine (eq_trans Hent _).
    vm_compute. reflexivity.
Defined.

(** X8: when writing the archive fails with an exception,
    [backup_website] returns [None] after logging the exception, and the
    archive written so far stays in the backup directory: this path removes
    nothing. *)
Theorem failed_archive_is_left_behind E self website site_path name arcname
    partial e w es :
  let dir := self_backup_dir self in
  let backup_name := website_backup_name name (stamp (clock E (reads w))) in
  truthy (dict_get website "enabled" (VBool false)) = true →
  website !! "path" = Some (VStr site_path) →
  path_exists site_path w = (Ret true, w) →
  website !! "name" = Some name →
  arcname_of name site_path = Some arcname →
  fs w !! dir = Some es →
  (∀ f, es !! backup_name ≠ Some (Dir f)) →
  tar_add E (S (reads w)) site_path arcname = TarFailed partial e →
  is_Exception e = true →
  ∃ w', backup_website E self website w = (Ret None, w')
        ∧ entries w' dir
          = <[backup_name := File {| st_size := partial;
                                     st_mtime := epoch (clock E (S (reads w))) |}]> es
        ∧ (∀ d, d ≠ dir → fs w' !! d = fs w !! d)
        ∧ log w' = log w ++ [(INFO, BackingUpWebsite name);
                             (ERROR, WebsiteBackupFailed e)]
        ∧ ∀ rest counts,
            for_each (backup_website E self) (website :: rest) counts w
            = for_each (backup_website E self) rest
                       (fst counts, snd counts + 1) w'.
Proof.
  intros dir backup_name Hen Hpath Hexists Hname Harc Hdir Hnot Htar Hexc.
  destruct (backup_website_failed E self website site_path name w es Hen Hpath
              Hexists Hname Hdir Hnot arcname partial e Harc Htar Hexc)
    as (w' & Hrun & Hent & Hfs & _ & Hlog).
  exists w'. repeat (split; [assumption|]).
  intros rest counts. by apply for_each_None.
Qed.

Lemma failed_archive_is_left_behind_witness :
  ∃ w', backup_website full_disk_host (manager_of [blog_site] []) blog_site served
        = (Ret None, w')
        ∧ entries w' "backups"
          = {[ "blog_website_20231114_221320.tar.gz"
               := File {| st_size := 512; st_mtime := inject_Z 1700000001 |} ]}.
Proof.
  destruct (failed_archive_is_left_behind full_disk_host
              (manager_of [blog_site] []) blog_site "/var/www/blog"
              (VStr "blog") "blog" 512 (Exception_ "No space left on device")
              served ∅ eq_refl eq_refl eq_refl eq_refl eq_refl eq_refl)
    as (w' & Hrun & Hent & _).
  - intros f. rewrite lookup_empty. discriminate.
  - reflexivity.
  - reflexivity.
  - exists w'. split; [exact Hrun|]. refine (eq_trans Hent _).
    vm_compute. reflexivity.
Defined.

(** X9: a MySQL target whose fields are present, with both tools found
    and both stages ending with return code 0: [backup_mysql_database]
    returns the path of the new dump, whose size is what the compressor
    wrote; exactly two processes were started, [mysqldump] with the
    connection settings and the password among its arguments, then [gzip];
    the loop of [run_backup] adds one to the success count. *)
Theorem mysql_dump_is_written E self db_config name host port user password
    database w es :
  let dir := self_backup_dir self in
  let backup_name := mysql_backup_name name (stamp (clock E (reads w))) in
  let dump := mysqldump_process host port user password database in
  let r := pipe E (S (reads w)) dump in
  db_config !! "name" = Some name →
  db_config !! "database" = Some (VStr database) →
  db_config !! "host" = Some host →
  db_config !! "port" = Some port →
  db_config !! "user" = Some user →
  db_config !! "password" = Some password →
  fs w !! dir = Some es →
  (∀ f, es !! backup_name ≠ Some (Dir f)) →
  on_path E "mysqldump" = true →
  on_path E "gzip" = true →
  dump_returncode r = 0 →
  gzip_returncode r = 0 →
  ∃ w', backup_mysql_database E self db_config w
        = (Ret (Some (joinpath dir backup_name)), w')
        ∧ entries w' dir
          = <[backup_name := File {| st_size := written r;
                                     st_mtime := epoch (clock E (S (reads w))) |}]> es
        ∧ (∀ d, d ≠ dir → fs w' !! d = fs w !! d)
        ∧ procs w' = procs w ++ [dump; gzip_process]
        ∧ log w' = log w ++ [(INFO, BackingUpMySQLDatabase (VStr database));
                             (INFO, MySQLBackupCompleted backup_name (written r))].
Proof.
  intros dir backup_name dump r Hname Hdatabase Hhost Hport Huser Hpassword
         Hdir Hnot Htool Hgzip Hd Hg.
  destruct (backup_mysql_database_done E self db_config name (VStr database) w
              Hname Hdatabase host port user password database es
              Hhost Hport Huser Hpassword eq_refl Hdir Hnot Htool Hgzip Hd Hg)
    as (w' & Hrun & Hent & Hfs & Hprocs & Hlog).
  exists w'. by repeat (split; [assumption|]).
Qed.

Lemma mysql_dump_is_written_witness :
  ∃ w', backup_mysql_database working_host (manager_of [] [shop_db "mysql"])
                              (shop_db "mysql") start
        = (Ret (Some "backups/shop_mysql_20231114_221320.sql.gz"), w')
        ∧ procs w' = [mysqldump_process (VStr "localhost") (VInt 3306)
                        (VStr "backup") (VStr "secret") "shopdb"; gzip_process].
Proof.
  destruct (mysql_dump_is_written working_host (manager_of [] [shop_db "mysql"])
              (shop_db "mysql") (VStr "shop") (VStr "localhost") (VInt 3306)
              (VStr "backup") (VStr "secret") "shopdb" start ∅
              eq_refl eq_refl eq_refl eq_refl eq_refl eq_refl eq_refl)
    as (w' & Hrun & _ & _ & Hprocs & _); try reflexivity.
  - intros f. rewrite lookup_empty. discriminate.
  - exists w'. split; [exact Hrun|exact Hprocs].
Defined.

(** X10: a PostgreSQL target whose fields are present, with both tools
    found and both stages ending with return code 0:
    [backup_postgresql_database] returns the path of the new dump; the
    [pg_dump] process gets the password in [PGPASSWORD] and not among its
    arguments, and its port argument is the target's [port], or 5432 when the
    target has none. *)
Theorem postgresql_dump_is_written E self db_config name host user password
    database w es :
  let dir := self_backup_dir self in
  let backup_name := postgresql_backup_name name (stamp (clock E (reads w))) in
  let port := dict_get db_config "port" (VInt 5432) in
  let dump := pg_dump_process host port user password database in
  let r := pipe E (S (reads w)) dump in
  db_config !! "name" = Some name →
  db_config !! "database" = Some (VStr database) →
  db_config !! "host" = Some host →
  db_config !! "user" = Some user →
  db_config !! "password" = Some (VStr password) →
  fs w !! dir = Some es →
  (∀ f, es !! backup_name ≠ Some (Dir f)) →
  on_path E "pg_dump" = true →
  on_path E "gzip" = true →
  dump_returncode r = 0 →
  gzip_returncode r = 0 →
  ∃ w', backup_postgresql_database E self db_config w
        = (Ret (Some (joinpath dir backup_name)), w')
        ∧ entries w' dir
          = <[backup_name := File {| st_size := written r;
                                     st_mtime := epoch (clock E (S (reads w))) |}]> es
        ∧ (∀ d, d ≠ dir → fs w' !! d = fs w !! d)
        ∧ procs w' = procs w ++ [dump; gzip_process]
        ∧ environ dump = [("PGPASSWORD", password)]
        ∧ (db_config !! "port" = None →
           argv dump !! 2%nat = Some "--port=5432")
        ∧ log w' = log w ++ [(INFO, BackingUpPostgreSQLDatabase (VStr database));
                             (INFO, PostgreSQLBackupCompleted backup_name (written r))].
Proof.
  intros dir backup_name port dump r Hname Hdatabase Hhost Huser Hpassword
         Hdir Hnot Htool Hgzip Hd Hg.
  destruct (backup_postgresql_database_done E self db_config name
              (VStr database) w Hname Hdatabase host user password database es
              Hhost Huser Hpassword eq_refl Hdir Hnot Htool Hgzip Hd Hg)
    as (w' & Hrun & Hent & Hfs & Hprocs & Hlog).
  exists w'. repeat (split; [assumption|]).
  split; [reflexivity|]. split; [|assumption].
  intros Hport. unfold dump, port, dict_get. by rewrite Hport.
Qed.

Lemma postgresql_dump_is_written_witness :
  ∃ w', backup_postgresql_database working_host (manager_of [] [portless_db])
                                   portless_db start
        = (Ret (Some "backups/shop_postgresql_20231114_221320.sql.gz"), w')
        ∧ procs w'
          = [{| argv := ["pg_dump"; "--host=localhost"; "--port=5432";
                         "--username=backup"; "--format=plain"; "--no-owner";
                         "--no-acl"; "shopdb"];
                environ := [("PGPASSWORD", "secret")] |};
             gzip_process].
Proof.
  destruct (postgresql_dump_is_written working_host
              (manager_of [] [portless_db]) portless_db (VStr "shop")
              (VStr "localhost") (VStr "backup") "secret" "shopdb" start ∅
              eq_refl eq_refl eq_refl eq_refl eq_refl eq_refl)
    as (w' & Hrun & _ & _ & Hprocs & _); try reflexivity.
  - intros f. rewrite lookup_empty. discriminate.
  - exists w'. split; [exact Hrun|exact Hprocs].
Defined.

(** X11: a database target with [name] and [database] but without one
    of its connection fields ([host], [port], [user] or [password] for MySQL;
    [password], [host] or [user] for PostgreSQL, where [port] is optional):
    the [KeyError] is caught, the target returns [None] after an error line
    naming the first missing key, no process is started, and nothing is
    created.  The handler removes the file that has the name of the dump if
    there is one, though this call did not write it. *)
Theorem missing_connection_field_is_caught E self db_config name database key w :
  let dir := self_backup_dir self in
  let timestamp := stamp (clock E (reads w)) in
  db_config !! "name" = Some name →
  db_config !! "database" = Some database →
  (first_missing db_config ["host"; "port"; "user"; "password"] = Some key →
   let backup_name := mysql_backup_name name timestamp in
   (∀ f, entries w dir !! backup_name ≠ Some (Dir f)) →
   ∃ w', backup_mysql_database E self db_config w = (Ret None, w')
         ∧ entries w' dir = delete backup_name (entries w dir)
         ∧ (∀ d, d ≠ dir → fs w' !! d = fs w !! d)
         ∧ procs w' = procs w
         ∧ log w' = log w ++ [(INFO, BackingUpMySQLDatabase database);
                              (ERROR, MySQLBackupFailed (KeyError key))])
  ∧ (first_missing db_config ["password"; "host"; "user"] = Some key →
     let backup_name := postgresql_backup_name name timestamp in
     (∀ f, entries w dir !! backup_name ≠ Some (Dir f)) →
     ∃ w', backup_postgresql_database E self db_config w = (Ret None, w')
           ∧ entries w' dir = delete backup_name (entries w dir)
           ∧ (∀ d, d ≠ dir → fs w' !! d = fs w !! d)
           ∧ procs w' = procs w
           ∧ log w' = log w ++ [(INFO, BackingUpPostgreSQLDatabase database);
                                (ERROR, PostgreSQLBackupFailed (KeyError key))]).
Proof.
  intros dir timestamp Hname Hdatabase. split.
  - intros Hmiss backup_name Hnot.
    exact (backup_mysql_database_missing_field E self db_config name database w
             Hname Hdatabase key Hmiss Hnot).
  - intros Hmiss backup_name Hnot.
    exact (backup_postgresql_database_missing_field E self db_config name
             database w Hname Hdatabase key Hmiss Hnot).
Qed.

Lemma missing_connection_field_is_caught_witness :
  ∃ w', backup_mysql_database working_host (manager_of [] [userless_db])
                              userless_db start
        = (Ret None, w')
        ∧ procs w' = []
        ∧ log w' = [(INFO, BackingUpMySQLDatabase (VStr "shopdb"));
                    (ERROR, MySQLBackupFailed (KeyError "user"))].
Proof.
  destruct (proj1 (missing_connection_field_is_caught working_host
                     (manager_of [] [userless_db]) userless_db (VStr "shop")
                     (VStr "shopdb") "user" start eq_refl eq_refl) eq_refl)
    as (w' & Hrun & _ & _ & Hprocs & Hlog).
  - intros f. vm_compute. discriminate.
  - exists w'. split; [exact Hrun|]. split; [exact Hprocs|exact Hlog].
Defined.

(** X12: a MySQL target whose [database] is not a string: the
    destination is opened, [Popen] refuses the argument list with
    [TypeError] before any process is started, and the handler removes the
    destination, so that the backup directory is left without it. *)
Theorem database_not_a_string_is_caught E self db_config name database host
    port user password w es :
  let dir := self_backup_dir self in
  let backup_name := mysql_backup_name name (stamp (clock E (reads w))) in
  db_config !! "name" = Some name →
  db_config !! "database" = Some database →
  db_config !! "host" = Some host →
  db_config !! "port" = Some port →
  db_config !! "user" = Some user →
  db_config !! "password" = Some password →
  (∀ s, database ≠ VStr s) →
  fs w !! dir = Some es →
  (∀ f, es !! backup_name ≠ Some (Dir f)) →
  ∃ w', backup_mysql_database E self db_config w = (Ret None, w')
        ∧ entries w' dir = delete backup_name es
        ∧ (∀ d, d ≠ dir → fs w' !! d = fs w !! d)
        ∧ procs w' = procs w
        ∧ log w' = log w ++ [(INFO, BackingUpMySQLDatabase database);
                             (ERROR, MySQLBackupFailed TypeError)].
Proof.
  intros dir backup_name Hname Hdatabase Hhost Hport Huser Hpassword Hbad
         Hdir Hnot.
  exact (backup_mysql_database_bad_database E self db_config name database w
           Hname Hdatabase host port user password es Hhost Hport Huser
           Hpassword Hbad Hdir Hnot).
Qed.

Lemma database_not_a_string_is_caught_witness :
  ∃ w', backup_mysql_database working_host (manager_of [] [numbered_db])
                              numbered_db start
        = (Ret None, w')
        ∧ entries w' "backups" = ∅
        ∧ procs w' = [].
Proof.
  destruct (database_not_a_string_is_caught working_host
              (manager_of [] [numbered_db]) numbered_db (VStr "shop") (VInt 7)
              (VStr "localhost") (VInt 3306) (VStr "backup") (VStr "secret")
              start ∅ eq_refl eq_refl eq_refl eq_refl eq_refl eq_refl)
    as (w' & Hrun & Hent & _ & Hprocs & _).
  - intros s. discriminate.
  - reflexivity.
  - intros f. rewrite lookup_empty. discriminate.
  - exists w'. split; [exact Hrun|]. split; [exact Hent|exact Hprocs].
Defined.

(** ** Targets that stop the run *)

Section Malformed.

Context (E : env) (self : BackupManager).

(** X13: a website entry the code cannot read stops [run_backup]: a disabled
    entry without [name], an enabled entry without [path], or an enabled
    entry whose [path] is not a string raises out of [backup_website] before
    anything is done, and the loop hands the exception on without looking at
    the entries that follow. *)
Theorem unreadable_website_stops_the_loop website w :
  let stops e :=
    backup_website E self website w = (Raise e, w)
    ∧ ∀ rest counts,
        for_each (backup_website E self) (website :: rest) counts w
        = (Raise e, w) in
  (truthy (dict_get website "enabled" (VBool false)) = false →
   website !! "name" = None → stops (KeyError "name"))
  ∧ (truthy (dict_get website "enabled" (VBool false)) = true →
     website !! "path" = None → stops (KeyError "path"))
  ∧ (truthy (dict_get website "enabled" (VBool false)) = true →
     ∀ v, website !! "path" = Some v → (∀ s, v ≠ VStr s) → stops TypeError).
Proof.
  intros stops.
  assert (Hloop : ∀ e, backup_website E self website w = (Raise e, w) → stops e).
  { intros e Hrun. split; [exact Hrun|]. intros rest counts.
    by apply for_each_Raise. }
  split; [|split].
  - intros Hen Hname. apply Hloop. unfold backup_website. rewrite Hen.
    cbn [negb]. unfold bind, subscript. by rewrite Hname.
  - intros Hen Hpath. apply Hloop. unfold backup_website. rewrite Hen.
    cbn [negb]. unfold bind, subscript. by rewrite Hpath.
  - intros Hen v Hpath Hv. apply Hloop. unfold backup_website. rewrite Hen.
    cbn [negb]. unfold bind at 1. unfold subscript. rewrite Hpath. cbn [ret].
    unfold bind at 1. destruct v as [| | |s]; try reflexivity.
    by destruct (Hv s).
Qed.

(** X14: a database entry the code cannot read stops [run_backup] as well:
    an enabled entry whose [type] is present and not a string raises
    [AttributeError]; an enabled MySQL or PostgreSQL entry without [name], or
    with [name] and without [database], raises [KeyError] after the clock was
    read and before anything is logged, created or started.  The entries that
    follow are not looked at. *)
Theorem unreadable_database_stops_the_loop db_config w :
  let stops e w' :=
    backup_database E self db_config w = (Raise e, w')
    ∧ ∀ rest counts,
        for_each (backup_database E self) (db_config :: rest) counts w
        = (Raise e, w') in
  truthy (dict_get db_config "enabled" (VBool false)) = true →
  (∀ v, db_config !! "type" = Some v → (∀ s, v ≠ VStr s) →
        stops AttributeError w)
  ∧ (∀ s, dict_get db_config "type" (VStr "mysql") = VStr s →
          (mysql_type (lower s) || postgresql_type (lower s))%bool = true →
          (db_config !! "name" = None → stops (KeyError "name") (ticked w))
          ∧ (is_Some (db_config !! "name") →
             db_config !! "database" = None →
             stops (KeyError "database") (ticked w))).
Proof.
  intros stops Hen.
  assert (Hloop : ∀ e w', backup_database E self db_config w = (Raise e, w')
                          → stops e w').
  { intros e w' Hrun. split; [exact Hrun|]. intros rest counts.
    by apply for_each_Raise. }
  split.
  - intros v Hty Hv. apply Hloop. unfold backup_database. rewrite Hen.
    cbn [negb]. unfold dict_get. rewrite Hty. unfold bind at 1.
    destruct v as [| | |s]; try reflexivity. by destruct (Hv s).
  - intros s Hty Hkind.
    pose proof (backup_database_enabled E self db_config s w Hen Hty) as Hrun.
    split.
    + intros Hname. apply Hloop. rewrite Hrun.
      destruct (mysql_type (lower s)).
      * unfold backup_mysql_database, get_timestamp.
        unfold bind at 1. unfold bind at 1. unfold now at 1. cbn [ret].
        unfold bind at 1. unfold subscript. by rewrite Hname.
      * cbn [orb] in Hkind. rewrite Hkind.
        unfold backup_postgresql_database, get_timestamp.
        unfold bind at 1. unfold bind at 1. unfold now at 1. cbn [ret].
        unfold bind at 1. unfold subscript. by rewrite Hname.
    + intros [name Hname] Hdb. apply Hloop. rewrite Hrun.
      destruct (mysql_type (lower s)).
      * unfold backup_mysql_database, get_timestamp.
        unfold bind at 1. unfold bind at 1. unfold now at 1. cbn [ret].
        run_subscript Hname.
        unfold bind at 1. unfold subscript. by rewrite Hdb.
      * cbn [orb] in Hkind. rewrite Hkind.
        unfold backup_postgresql_database, get_timestamp.
        unfold bind at 1. unfold bind at 1. unfold now at 1. cbn [ret].
        run_subscript Hname.
        unfold bind at 1. unfold subscript. by rewrite Hdb.
Qed.

End Malformed.

Lemma unreadable_website_stops_the_loop_witness :
  for_each (backup_website working_host (manager_of [nameless_site; blog_site] []))
           [nameless_site; blog_site] (0, 0) served
  = (Raise (KeyError "name"), served).
Proof.
  destruct (unreadable_website_stops_the_loop working_host
              (manager_of [nameless_site; blog_site] []) nameless_site served)
    as (Hname & _).
  destruct (Hname eq_refl eq_refl) as [_ Hloop].
  exact (Hloop [blog_site] (0, 0)).
Defined.

Lemma unreadable_database_stops_the_loop_witness :
  for_each (backup_database working_host (manager_of [] [nameless_db]))
           [nameless_db; shop_db "mysql"] (0, 0) start
  = (Raise (KeyError "name"), ticked start).
Proof.
  destruct (unreadable_database_stops_the_loop working_host
              (manager_of [] [nameless_db]) nameless_db start eq_refl)
    as (_ & Hkey).
  destruct (Hkey "postgres" eq_refl eq_refl) as [Hname _].
  destruct (Hname eq_refl) as [_ Hloop].
  exact (Hloop [shop_db "mysql"] (0, 0)).
Defined.

(** ** The report of the retention sweep *)

Lemma expired_in_delete current_time retention_seconds es name rest :
  name ∉ rest →
  List.filter (expired_in current_time retention_seconds (delete name es)) rest
  = List.filter (expired_in current_time retention_seconds es) rest.
Proof.
  intros Hfresh. apply List.filter_ext_in. intros n Hn.
  unfold expired_in. rewrite lookup_delete_ne; [done|].
  intros ->. apply Hfresh. by apply list_elem_of_In.
Qed.

Lemma total_size_delete es name names :
  name ∉ names → total_size (delete name es) names = total_size es names.
Proof.
  induction names as [|n names IH]; [done|].
  intros Hfresh. apply not_elem_of_cons in Hfresh as [Hne Hfresh].
  cbn [total_size foldr]. fold (total_size (delete name es) names).
  fold (total_size es names). rewrite IH by done.
  unfold size_in. by rewrite lookup_delete_ne.
Qed.

Lemma not_elem_of_filter (f : string → bool) name rest :
  name ∉ rest → name ∉ List.filter f rest.
Proof.
  intros Hfresh Hin. apply Hfresh. apply list_elem_of_In.
  apply list_elem_of_In in Hin. by apply List.filter_In in Hin as [? _].
Qed.

Lemma sweep_report dir current_time retention_seconds backup_files :
  ∀ counts w,
    NoDup backup_files →
    let es := entries w dir in
    let gone := List.filter (expired_in current_time retention_seconds es)
                            backup_files in
    ∃ w',
      sweep dir current_time retention_seconds backup_files counts w
      = (Ret (fst counts + Z.of_nat (length gone),
              snd counts + total_size es gone), w')
      ∧ log w' = log w ++ removal_lines gone.
Proof.
  induction backup_files as [|name rest IH]; intros counts w Hnd es gone.
  - exists w. unfold gone. cbn. rewrite !Z.add_0_r, app_nil_r.
    by destruct counts.
  - apply NoDup_cons in Hnd as [Hfresh Hnd].
    assert (Hskip :
      expired_in current_time retention_seconds es name = false →
      sweep dir current_time retention_seconds (name :: rest) counts w
      = sweep dir current_time retention_seconds rest counts w).
    { unfold expired_in. fold es. cbn [sweep]. unfold bind at 1, is_file.
      fold es. destruct (es !! name) as [[f|f]|] eqn:Hname; cbn [andb expired];
        [done| |done].
      destruct (recognized name); cbn [andb]; [|done].
      unfold bind at 1, stat at 1. fold es. rewrite Hname.
      by intros ->. }
    unfold gone. cbn [List.filter].
    destruct (expired_in current_time retention_seconds es name) eqn:Hexp.
    + unfold expired_in in Hexp.
      destruct (es !! name) as [[f|f]|] eqn:Hname; [done| |done].
      cbn [expired] in Hexp. apply andb_true_iff in Hexp as [Hrec Hold].
      cbn [sweep]. unfold bind at 1, is_file. fold es. rewrite Hname, Hrec.
      cbn [andb]. unfold bind at 1, stat at 1. fold es. rewrite Hname, Hold.
      unfold bind at 1, stat at 1. fold es. rewrite Hname.
      unfold bind at 1, unlink at 1. fold es. rewrite Hname.
      unfold bind at 1, logging at 1.
      set (w1 := logged INFO (RemovedOldBackup name)
                   (set_fs (<[dir := delete name es]> (fs w)) w)).
      destruct (IH (fst counts + 1, snd counts + st_size f) w1 Hnd)
        as (w' & Hrun & Hlog).
      assert (Hes : entries w1 dir = delete name es).
      { unfold w1. by rewrite entries_logged, entries_set_fs. }
      rewrite Hes in Hrun, Hlog.
      rewrite expired_in_delete in Hrun, Hlog by done.
      rewrite total_size_delete in Hrun by (by apply not_elem_of_filter).
      exists w'. split.
      * rewrite Hrun. cbn [fst snd length total_size foldr].
        fold (total_size es (List.filter
                (expired_in current_time retention_seconds es) rest)).
        unfold size_in at 1. rewrite Hname.
        do 2 f_equal. f_equal; lia.
      * rewrite Hlog. unfold w1. cbn [logged log removal_lines map].
        by rewrite <- app_assoc.
    + rewrite (Hskip eq_refl). apply (IH counts w Hnd).
Qed.

Section Report.

Context (E : env) (self : BackupManager).

Let dir := self_backup_dir self.
Let days := default 7 (retention_days (self_config self)).

(** X16: [cleanup_old_backups] reports what it did: the log gains the opening
    line, one line per file removed, in the order of the directory listing,
    and a closing line that gives the number of files removed and the sum of
    their sizes, or says that there was nothing to remove. *)
Theorem cleanup_report_is_accurate w :
  let es := entries w dir in
  let gone := List.filter
                (expired_in (epoch (clock E (reads w))) (days * 24 * 3600) es)
                (map fst (map_to_list es)) in
  ∃ w', cleanup_old_backups E self w = (Ret tt, w')
        ∧ log w' = log w
                   ++ [(INFO, CleaningUpBackupsOlderThan days)]
                   ++ removal_lines gone
                   ++ [(INFO, match gone with
                              | [] => NoOldBackupsToRemove
                              | _ => CleanedUp (Z.of_nat (length gone))
                                               (total_size es gone)
                              end)].
Proof.
  intros es gone.
  unfold cleanup_old_backups. fold dir. fold days.
  unfold bind at 1. unfold now at 1.
  unfold bind at 1. unfold logging at 1.
  unfold bind at 1. unfold glob_star at 1.
  unfold bind at 1.
  set (w1 := logged INFO (CleaningUpBackupsOlderThan days) (ticked w)).
  change (entries w1 dir) with es.
  destruct (sweep_report dir (epoch (clock E (reads w))) (days * 24 * 3600)
              (map fst (map_to_list es)) (0, 0) w1) as (w' & Hrun & Hlog).
  { apply NoDup_fst_map_to_list. }
  change (entries w1 dir) with es in Hrun, Hlog. fold gone in Hrun, Hlog.
  rewrite Hrun. cbn [fst snd].
  destruct gone as [|n gone'].
  - cbn [length Z.of_nat Z.add Z.gtb Z.compare]. unfold logging.
    eexists. split; [reflexivity|]. cbn [logged log]. rewrite Hlog.
    unfold w1. cbn. by rewrite <- !app_assoc.
  - assert (Hpos : (0 + Z.of_nat (length (n :: gone')) >? 0) = true).
    { apply Z.gtb_lt. cbn [length]. lia. }
    rewrite Hpos. unfold logging.
    eexists. split; [reflexivity|]. cbn [logged log]. rewrite Hlog.
    unfold w1. cbn [logged log]. rewrite Z.add_0_l.
    by rewrite <- !app_assoc.
Qed.

End Report.

(** ** What the sweep never removes *)

Section Kept.

Context (E : env) (self : BackupManager).

Let dir := self_backup_dir self.

(** X17: the sweep leaves every subdirectory of the backup directory in
    place, whatever its name and its age (the log directory among them), and
    every entry of any directory after the sweep was there before it. *)
Theorem cleanup_keeps_directories w :
  ∃ w', cleanup_old_backups E self w = (Ret tt, w')
        ∧ (∀ n f, entries w dir !! n = Some (Dir f) →
                  entries w' dir !! n = Some (Dir f))
        ∧ no_new_files w w'.
Proof.
  destruct (cleanup_old_backups_spec E self w)
    as (w' & Hrun & Hlook & Hfs & _).
  exists w'. split; [exact Hrun|]. split.
  - intros n f Hn. fold dir in Hlook. by rewrite Hlook, Hn.
  - intros d n nd. destruct (decide (d = dir)) as [->|Hd].
    + fold dir in Hlook. rewrite Hlook.
      destruct (entries w dir !! n) as [nd'|]; [|done].
      by destruct (expired _ _ _ _).
    + unfold entries. by rewrite Hfs.
Qed.

End Kept.

(** ** Two archives under one name *)

Section SameName.

Context (E : env) (self : BackupManager) (website : dict).
Context (site_path arcname : string) (name : scalar) (w : world).
Context (es : gmap string node) (size1 size2 : Z).

Let dir := self_backup_dir self.
Let backup_name := website_backup_name name (stamp (clock E (reads w))).

(** X18: two entries of [websites] with the same [name], archived within
    the same second of the clock: both archives succeed and both are counted,
    but they go to the same file, and the backup directory holds the second
    archive only. *)
Theorem same_name_same_second_overwrites :
  truthy (dict_get website "enabled" (VBool false)) = true →
  website !! "path" = Some (VStr site_path) →
  website !! "name" = Some name →
  arcname_of name site_path = Some arcname →
  is_Some (fs w !! site_path) →
  site_path ≠ dir →
  fs w !! dir = Some es →
  (∀ f, es !! backup_name ≠ Some (Dir f)) →
  stamp (clock E (S (reads w))) = stamp (clock E (reads w)) →
  tar_add E (S (reads w)) site_path arcname = TarDone size1 →
  tar_add E (S (S (reads w))) site_path arcname = TarDone size2 →
  ∃ w', for_each (backup_website E self) [website; website] (0, 0) w
        = (Ret (2, 0), w')
        ∧ entries w' dir
          = <[backup_name := File {| st_size := size2;
                st_mtime := epoch (clock E (S (S (reads w)))) |}]> es.
Proof.
  intros Hen Hpath Hname Harc Hsite Hne Hdir Hnot Hstamp Htar1 Htar2.
  assert (Hex : ∀ w0, is_Some (fs w0 !! site_path) →
                      path_exists site_path w0 = (Ret true, w0)).
  { intros w0 Hs. unfold path_exists.
    by rewrite bool_decide_eq_true_2. }
  destruct (backup_website_done E self website site_path name w es Hen Hpath
              (Hex w Hsite) Hname Hdir Hnot arcname size1 Harc Htar1)
    as (w1 & Hrun1 & Hent1 & Hfs1 & _ & _ & Hreads & [es1 Hdir1]).
  fold dir in Hrun1, Hent1, Hfs1, Hdir1. fold backup_name in Hrun1, Hent1.
  assert (Hes1 : es1 = <[backup_name := File {| st_size := size1;
                    st_mtime := epoch (clock E (S (reads w))) |}]> es).
  { rewrite <- Hent1. unfold entries. by rewrite Hdir1. }
  assert (Hsite1 : is_Some (fs w1 !! site_path)) by (by rewrite Hfs1).
  assert (Hname1 : website_backup_name name (stamp (clock E (reads w1)))
                   = backup_name).
  { unfold backup_name. by rewrite Hreads, Hstamp. }
  assert (Hnot1 : ∀ f, es1 !! website_backup_name name (stamp (clock E (reads w1)))
                       ≠ Some (Dir f)).
  { intros f. by rewrite Hname1, Hes1, lookup_insert_eq. }
  rewrite <- Hreads in Htar2.
  destruct (backup_website_done E self website site_path name w1 es1 Hen Hpath
              (Hex w1 Hsite1) Hname Hdir1 Hnot1 arcname size2 Harc Htar2)
    as (w2 & Hrun2 & Hent2 & _).
  fold dir in Hrun2, Hent2. rewrite Hname1 in Hrun2, Hent2.
  exists w2. split.
  - rewrite (for_each_Some _ _ _ _ _ _ _ Hrun1).
    rewrite (for_each_Some _ _ _ _ _ _ _ Hrun2). reflexivity.
  - rewrite Hent2, Hes1, insert_insert_eq. by rewrite Hreads.
Qed.

End SameName.

(** Two entries for the blog. *)
Lemma same_name_same_second_overwrites_witness :
  ∃ w', for_each (backup_website working_host (manager_of [blog_site; blog_site] []))
                 [blog_site; blog_site] (0, 0) served
        = (Ret (2, 0), w')
        ∧ entries w' "backups"
          = {[ "blog_website_20231114_221320.tar.gz"
               := File {| st_size := 1024; st_mtime := inject_Z 1700000002 |} ]}.
Proof.
  destruct (same_name_same_second_overwrites working_host
              (manager_of [blog_site; blog_site] []) blog_site "/var/www/blog"
              "blog" (VStr "blog") served ∅ 1024 1024
              eq_refl eq_refl eq_refl eq_refl)
    as (w' & Hrun & Hent); try reflexivity.
  - vm_compute. by eexists.
  - discriminate.
  - intros f. rewrite lookup_empty. discriminate.
  - exists w'. split; [exact Hrun|]. refine (eq_trans Hent _).
    vm_compute. reflexivity.
Defined.

(** ** Setting up the manager *)

Lemma split_last_slash_logs dir :
  split_last_slash (joinpath dir "logs") = Some (dir, "logs").
Proof.
  unfold joinpath. induction dir as [|c dir IH]; [done|].
  change (String c dir +:+ "/" +:+ "logs")
    with (String c (dir +:+ "/" +:+ "logs")).
  cbn [split_last_slash]. by rewrite IH.
Qed.

Lemma joinpath_ne dir name : joinpath dir name ≠ dir.
Proof.
  unfold joinpath. induction dir as [|c dir IH]; [done|].
  change (String c dir +:+ "/" +:+ name)
    with (String c (dir +:+ "/" +:+ name)).
  intros [= Heq]. by apply IH.
Qed.

Section Init.

Context (E : env) (config : Configuration) (dir : string) (w : world).
Context (es : gmap string node).

Let log_dir := joinpath dir "logs".
Let log_file := log_file_name (clock E (reads w)).

(** X19: [BackupManager(config)] on a backup directory that is already
    there: unless [logs] is a regular file or the day's log file is a
    directory, the manager is built; the log directory and the day's log file
    exist afterwards; every entry of the backup directory other than [logs],
    and every entry of the log directory, is as it was; nothing is logged,
    printed or started. *)
Theorem manager_on_existing_directory :
  backup_dir config = Some dir →
  fs w !! dir = Some es →
  (∀ f, es !! "logs" ≠ Some (File f)) →
  (∀ f, entries w log_dir !! log_file ≠ Some (Dir f)) →
  ∃ w', BackupManager_init E config w
        = (Ret {| self_config := config; self_backup_dir := dir |}, w')
        ∧ is_Some (fs w' !! log_dir)
        ∧ (∃ f, entries w' log_dir !! log_file = Some (File f))
        ∧ (∀ n, n ≠ "logs" → entries w' dir !! n = es !! n)
        ∧ (∀ n nd, entries w log_dir !! n = Some nd →
                   entries w' log_dir !! n = Some nd)
        ∧ docs w' = docs w ∧ procs w' = procs w ∧ log w' = log w
        ∧ stdout w' = stdout w.
Proof.
  intros Hbd Hdir Hlogs Hfile.
  pose proof (joinpath_ne dir "logs") as Hne. fold log_dir in Hne.
  unfold BackupManager_init. rewrite Hbd.
  unfold bind at 1. unfold mkdir at 1. rewrite Hdir.
  unfold bind at 1. unfold setup_logging. fold log_dir.
  unfold bind at 1. unfold mkdir at 1.
  destruct (fs w !! log_dir) as [ls|] eqn:Hld.
  - unfold bind at 1. unfold now at 1. fold log_file.
    unfold open_append. cbn [ticked fs]. rewrite Hld.
    assert (Hls : entries w log_dir = ls) by (unfold entries; by rewrite Hld).
    rewrite Hls in Hfile.
    destruct (ls !! log_file) as [[f|f]|] eqn:Hlf.
    + by destruct (Hfile f).
    + eexists. split; [reflexivity|]. cbn [ticked fs docs procs log stdout].
      change (entries (ticked w)) with (entries w).
      split; [by rewrite Hld|]. split; [exists f; by rewrite Hls|].
      split; [intros n _; unfold entries; cbn; by rewrite Hdir|].
      by repeat split.
    + eexists. split; [reflexivity|].
      split; [unfold put_file, set_fs; cbn; by rewrite lookup_insert_eq|].
      split; [eexists; rewrite entries_put_file; by rewrite lookup_insert_eq|].
      split; [intros n _; unfold entries; rewrite fs_put_file_ne by done;
              cbn; by rewrite Hdir|].
      split; [|done].
      intros n nd Hn. rewrite entries_put_file.
      change (entries (ticked w) log_dir) with (entries w log_dir).
      rewrite lookup_insert_ne; [done|]. intros <-.
      rewrite Hls in Hn. congruence.
  - pose proof (split_last_slash_logs dir) as Hsplit. fold log_dir in Hsplit.
    rewrite Hsplit, Hdir.
    set (w1 := set_fs (<[log_dir := ∅]> _) w).
    assert (Hw1 : ∃ r, (match es !! "logs" with
                        | Some (File _) =>
                            (Raise (Exception_ "FileExistsError"), w)
                        | _ => (Ret tt, w1)
                        end) = (r, w1) ∧ r = Ret tt).
    { destruct (es !! "logs") as [[f|f]|] eqn:Hl; [|by destruct (Hlogs f)|];
        by eexists. }
    destruct Hw1 as (r & -> & ->).
    unfold bind at 1. unfold now at 1. fold log_file.
    unfold open_append.
    assert (Hl1 : fs (ticked w1) !! log_dir = Some ∅).
    { unfold w1, set_fs. cbn. by rewrite lookup_insert_eq. }
    rewrite Hl1, lookup_empty.
    eexists. split; [reflexivity|].
    split; [unfold put_file, set_fs; cbn; by rewrite lookup_insert_eq|].
    split; [eexists; rewrite entries_put_file; by rewrite lookup_insert_eq|].
    split; [|split; [|done]].
    + intros n Hn. unfold entries. rewrite fs_put_file_ne by done.
      unfold w1, set_fs. cbn [ticked fs].
      rewrite lookup_insert_ne by exact Hne. rewrite lookup_insert_eq.
      cbn [default id].
      rewrite lookup_insert_ne; [done|]. by intros <-.
    + intros n nd Hn. unfold entries in Hn. rewrite Hld in Hn.
      cbn [default] in Hn. by rewrite lookup_empty in Hn.
Qed.

End Init.

(** A configuration whose only content is the backup directory. *)
Lemma manager_on_existing_directory_witness :
  ∃ w', BackupManager_init working_host (config_of [] []) start
        = (Ret (manager_of [] []), w')
        ∧ is_Some (fs w' !! "backups/logs")
        ∧ ∃ f, entries w' "backups/logs" !! "backup_20231114.log" = Some (File f).
Proof.
  destruct (manager_on_existing_directory working_host (config_of [] [])
              "backups" start ∅ eq_refl eq_refl)
    as (w' & Hrun & Hlogs & Hfile & _).
  - intros f. rewrite lookup_empty. discriminate.
  - intros f. vm_compute. discriminate.
  - exists w'. split; [exact Hrun|]. split; [exact Hlogs|exact Hfile].
Defined.
